(** * Consul catalog provider: from registry items to a dynamic configuration

    A shallow embedding of [pkg/provider/consulcatalog/config.go] and the
    properties of its eligibility filter, its two endpoint resolvers
    ([addServerTCP], [addServer]), its two fragment completers and the
    assembling loop of [buildConfiguration].

    Go maps are [gmap string _], Go slices are lists, a pointer that the
    code tests against nil is an [option], a function that mutates its
    pointer argument and returns an [error] returns the new pointee
    together with [option error]. *)

From Stdlib Require Import Ascii String.
From stdpp Require Import gmap strings list fin_maps.

Local Open Scope string_scope.
Local Open Scope list_scope.

(** ** Errors, results, log lines *)

(** [errors.New msg]: an error is identified with its message. *)
Definition error := string.

Definition errors_New (msg : string) : error := msg.

Inductive result (A : Type) : Type :=
| Ok (a : A)
| Err (e : error).

Arguments Ok {A} a.
Arguments Err {A} e.

(** The log calls of this file. Every line is emitted on a logger that
    carries the derived service key ([log.Str("serviceName", svcName)]). *)
Inductive logMessage : Type :=
| Debug_FilteringDisabledItem
| Errorf_MatchingConstraints (err : error)
| Debugf_PrunedByConstraint (constraints : string)
| Debug_FilteringUnhealthy
| Error_ (err : error).

Record logLine : Type := LogLine {
  log_serviceName : string;
  log_message : logMessage
}.

(** ** Go standard library *)

(** [bytealg.IndexByteString(s, c) >= 0] *)
Fixpoint containsByte (c : ascii) (s : string) : bool :=
  match s with
  | EmptyString => false
  | String c' rest => if Ascii.eqb c' c then true else containsByte c rest
  end.

(** [net.JoinHostPort]: a host with a colon is taken for a literal IPv6
    address and bracketed. *)
Definition net_JoinHostPort (host port : string) : string :=
  if containsByte ":"%char host then "[" +:+ host +:+ "]:" +:+ port
  else host +:+ ":" +:+ port.

(** ** Data model (package [dynamic], the fields this file touches) *)

Record Server : Type := mkServer {
  Server_URL : string;
  Server_Scheme : string;
  Server_Port : string
}.

Record TCPServer : Type := mkTCPServer {
  TCPServer_Address : string;
  TCPServer_Port : string
}.

Record ServersLoadBalancer : Type := mkServersLoadBalancer {
  Servers : list Server
}.

Record TCPServersLoadBalancer : Type := mkTCPServersLoadBalancer {
  TCPServers : list TCPServer
}.

(** [LoadBalancer] is a pointer and may be nil. *)
Record Service : Type := mkService {
  LoadBalancer : option ServersLoadBalancer
}.

Record TCPService : Type := mkTCPService {
  TCPLoadBalancer : option TCPServersLoadBalancer
}.

(** The zero values [dynamic.Server{}] and [dynamic.TCPServer{}]. *)
Definition Server_zero : Server := mkServer "" "" "".
Definition TCPServer_zero : TCPServer := mkTCPServer "" "".
Definition ServersLoadBalancer_zero : ServersLoadBalancer := mkServersLoadBalancer [].
Definition TCPServersLoadBalancer_zero : TCPServersLoadBalancer :=
  mkTCPServersLoadBalancer [].

(** Field assignments. *)
Definition Server_set_Port (v : string) (s : Server) : Server :=
  mkServer (Server_URL s) (Server_Scheme s) v.
Definition Server_set_URL (v : string) (s : Server) : Server :=
  mkServer v (Server_Scheme s) (Server_Port s).
Definition Server_set_Scheme (v : string) (s : Server) : Server :=
  mkServer (Server_URL s) v (Server_Port s).
Definition TCPServer_set_Port (v : string) (s : TCPServer) : TCPServer :=
  mkTCPServer (TCPServer_Address s) v.
Definition TCPServer_set_Address (v : string) (s : TCPServer) : TCPServer :=
  mkTCPServer v (TCPServer_Port s).

(** [loadBalancer.Servers[0].f = v]: an assignment through index 0. In the
    source it is only reached with at least one slot, so Go's bounds check
    never fires there. *)
Definition Servers0 (f : Server → Server) (lb : ServersLoadBalancer)
    : ServersLoadBalancer :=
  mkServersLoadBalancer (alter f 0%nat (Servers lb)).
Definition TCPServers0 (f : TCPServer → TCPServer) (lb : TCPServersLoadBalancer)
    : TCPServersLoadBalancer :=
  mkTCPServersLoadBalancer (alter f 0%nat (TCPServers lb)).

(** [extraConf]: the directives pre-parsed from the labels. *)
Record configuration : Type := mkExtraConf {
  Enable : bool
}.

Record itemData : Type := mkItem {
  item_ID : string;
  item_Node : string;
  item_Name : string;
  item_Address : string;
  item_Port : string;
  item_Status : string;
  item_Labels : gmap string string;
  item_Tags : list string;
  item_ExtraConf : configuration
}.

(** [api.HealthPassing] and its siblings (package consul/api). *)
Definition HealthPassing : string := "passing".
Definition HealthWarning : string := "warning".
Definition HealthCritical : string := "critical".

(** The [SetDefaults] methods of package [dynamic], which this file calls
    on freshly allocated zero values. Their bodies live outside this file. *)
Class Defaults : Type := {
  Server_SetDefaults : Server → Server;
  ServersLoadBalancer_SetDefaults : ServersLoadBalancer → ServersLoadBalancer;
  TCPServersLoadBalancer_SetDefaults : TCPServersLoadBalancer → TCPServersLoadBalancer
}.

(** ** Endpoint resolvers *)

Definition errLoadBalancerNotDefined : error := errors_New "load-balancer is not defined".
Definition errPortMissing : error := errors_New "port is missing".
Definition errAddressMissing : error := errors_New "address is missing".

(** [addServerTCP]. The local [port] is only ever assigned the item's
    port. *)
Definition addServerTCP (item : itemData) (loadBalancer : option TCPServersLoadBalancer)
    : option TCPServersLoadBalancer * option error :=
  match loadBalancer with
  | None => (None, Some errLoadBalancerNotDefined)
  | Some lb =>
    let lb :=
      if decide (length (TCPServers lb) = 0%nat)
      then mkTCPServersLoadBalancer [TCPServer_zero] else lb in
    let port := "" in
    let '(port, lb) :=
      if decide (item_Port item ≠ "")
      then (item_Port item, TCPServers0 (TCPServer_set_Port "") lb)
      else (port, lb) in
    if decide (port = "") then (Some lb, Some errPortMissing)
    else if decide (item_Address item = "") then (Some lb, Some errAddressMissing)
    else
      (Some (TCPServers0
               (TCPServer_set_Address (net_JoinHostPort (item_Address item) port)) lb),
       None)
  end.

(** [addServer]. The slot's port is read before a missing slot is
    created. *)
Definition addServer `{Defaults} (item : itemData)
    (loadBalancer : option ServersLoadBalancer)
    : option ServersLoadBalancer * option error :=
  match loadBalancer with
  | None => (None, Some errLoadBalancerNotDefined)
  | Some lb =>
    let port :=
      match Servers lb with
      | s :: _ => Server_Port s
      | [] => ""
      end in
    let lb :=
      if decide (length (Servers lb) = 0%nat)
      then mkServersLoadBalancer [Server_SetDefaults Server_zero] else lb in
    let '(port, lb) :=
      if decide (item_Port item ≠ "")
      then (item_Port item, Servers0 (Server_set_Port "") lb)
      else (port, lb) in
    if decide (port = "") then (Some lb, Some errPortMissing)
    else if decide (item_Address item = "") then (Some lb, Some errAddressMissing)
    else
      let scheme := default "" (Server_Scheme <$> Servers lb !! 0%nat) in
      let lb :=
        Servers0 (Server_set_URL
                    (scheme +:+ "://" +:+ net_JoinHostPort (item_Address item) port)) lb in
      let lb := Servers0 (Server_set_Scheme "") lb in
      (Some lb, None)
  end.

(** The port [addServer] settles on: the item's, or else the one slot 0
    held on entry. *)
Definition chosenPort (item : itemData) (lb : ServersLoadBalancer) : string :=
  if decide (item_Port item ≠ "") then item_Port item
  else default "" (Server_Port <$> Servers lb !! 0%nat).

(** ** Fragment completers *)

(** The [range] loop of [buildTCPServiceConfiguration] over the entries of
    the service map, stopping at the first error. Go leaves the iteration
    order of a map unspecified; the loop is run here on the entries in the
    order of [map_to_list], and [addServersTCP_Permutation] shows that
    neither success nor the completed services depend on that order. *)
Fixpoint addServersTCP (item : itemData) (services : list (string * TCPService))
    : result (list (string * TCPService)) :=
  match services with
  | [] => Ok []
  | (name, service) :: rest =>
    match addServerTCP item (TCPLoadBalancer service) with
    | (_, Some err) => Err err
    | (lb, None) =>
      match addServersTCP item rest with
      | Err err => Err err
      | Ok rest' => Ok ((name, mkTCPService lb) :: rest')
      end
    end
  end.

(** The same loop in [buildServiceConfiguration]. *)
Fixpoint addServers `{Defaults} (item : itemData) (services : list (string * Service))
    : result (list (string * Service)) :=
  match services with
  | [] => Ok []
  | (name, service) :: rest =>
    match addServer item (LoadBalancer service) with
    | (_, Some err) => Err err
    | (lb, None) =>
      match addServers item rest with
      | Err err => Err err
      | Ok rest' => Ok ((name, mkService lb) :: rest')
      end
    end
  end.

Section Provider.

(** Routers, middlewares and the rule template are declared in packages
    [dynamic] and [text/template]; this file only stores and counts them. *)
Context {Router Middleware TCPRouter Template : Type}.

Record HTTPConfiguration : Type := mkHTTPConfiguration {
  HTTP_Routers : gmap string Router;
  HTTP_Middlewares : gmap string Middleware;
  HTTP_Services : gmap string Service
}.

Record TCPConfiguration : Type := mkTCPConfiguration {
  TCP_Routers : gmap string TCPRouter;
  TCP_Services : gmap string TCPService
}.

(** [dynamic.Configuration]. The decoder allocates both sections, which is
    why the source dereferences them unchecked. *)
Record Configuration : Type := mkConfiguration {
  HTTP : HTTPConfiguration;
  TCP : TCPConfiguration
}.

Record Provider : Type := mkProvider {
  Constraints : string;
  defaultRuleTpl : Template
}.

(** The anonymous struct handed to the rule template. *)
Record model : Type := mkModel {
  model_Name : string;
  model_Labels : gmap string string
}.

(** The collaborators this file calls into. The ones that mutate the
    section they are given return the section they leave behind. *)
Class Collaborators : Type := {
  label_DecodeConfiguration : gmap string string → result Configuration;
  constraints_MatchTags : list string → string → result bool;
  provider_BuildTCPRouterConfiguration : TCPConfiguration → TCPConfiguration;
  provider_BuildRouterConfiguration :
    HTTPConfiguration → string → Template → model → HTTPConfiguration;
  provider_Merge : gmap string Configuration → Configuration
}.

Context `{!Defaults} `{!Collaborators}.

Definition buildTCPServiceConfiguration (item : itemData)
    (configuration : TCPConfiguration) : result TCPConfiguration :=
  let services :=
    if decide (size (TCP_Services configuration) = 0%nat)
    then {[ item_Name item :=
              mkTCPService
                (Some (TCPServersLoadBalancer_SetDefaults TCPServersLoadBalancer_zero)) ]}
    else TCP_Services configuration in
  match addServersTCP item (map_to_list services) with
  | Err err => Err err
  | Ok services' =>
    Ok (mkTCPConfiguration (TCP_Routers configuration) (list_to_map services'))
  end.

Definition buildServiceConfiguration (item : itemData)
    (configuration : HTTPConfiguration) : result HTTPConfiguration :=
  let services :=
    if decide (size (HTTP_Services configuration) = 0%nat)
    then {[ item_Name item :=
              mkService (Some (ServersLoadBalancer_SetDefaults ServersLoadBalancer_zero)) ]}
    else HTTP_Services configuration in
  match addServers item (map_to_list services) with
  | Err err => Err err
  | Ok services' =>
    Ok (mkHTTPConfiguration (HTTP_Routers configuration)
          (HTTP_Middlewares configuration) (list_to_map services'))
  end.

(** ** Eligibility filter *)

(** [keepContainer], with the line it logs; [ctxSvc] is the service key the
    logger carries. *)
Definition keepContainer (p : Provider) (ctxSvc : string) (item : itemData)
    : bool * list logLine :=
  if negb (Enable (item_ExtraConf item))
  then (false, [LogLine ctxSvc Debug_FilteringDisabledItem])
  else
    match constraints_MatchTags (item_Tags item) (Constraints p) with
    | Err err => (false, [LogLine ctxSvc (Errorf_MatchingConstraints err)])
    | Ok matches =>
      if negb matches
      then (false, [LogLine ctxSvc (Debugf_PrunedByConstraint (Constraints p))])
      else if bool_decide (item_Status item ≠ HealthPassing
                           ∧ item_Status item ≠ HealthWarning)
      then (false, [LogLine ctxSvc Debug_FilteringUnhealthy])
      else (true, [])
    end.

(** ** Assembler *)

(** [svcName := item.Node + "-" + item.Name + "-" + item.ID] *)
Definition svcName (item : itemData) : string :=
  item_Node item +:+ "-" +:+ item_Name item +:+ "-" +:+ item_ID item.

(** Lines 53 to 69 of the loop body: the application-layer completion,
    router synthesis and the final store. *)
Definition buildConfiguration_http (p : Provider) (item : itemData)
    (confFromLabel : Configuration) : option Configuration * list logLine :=
  match buildServiceConfiguration item (HTTP confFromLabel) with
  | Err err => (None, [LogLine (svcName item) (Error_ err)])
  | Ok http =>
    let http :=
      provider_BuildRouterConfiguration http (item_Name item) (defaultRuleTpl p)
        (mkModel (item_Name item) (item_Labels item)) in
    (Some (mkConfiguration http (TCP confFromLabel)), [])
  end.

(** The lines logged so far, followed by those of the rest of the
    iteration. *)
Definition after {A : Type} (logs : list logLine) (r : A * list logLine)
    : A * list logLine :=
  (r.1, logs ++ r.2).

(** One iteration of the loop of [buildConfiguration]: the fragment stored
    under [svcName item], or [None] when the iteration ends in [continue],
    and the lines logged on the way. *)
Definition buildConfiguration_item (p : Provider) (item : itemData)
    : option Configuration * list logLine :=
  let '(keep, logs) := keepContainer p (svcName item) item in
  if negb keep then (None, logs)
  else
    match label_DecodeConfiguration (item_Labels item) with
    | Err err => (None, logs ++ [LogLine (svcName item) (Error_ err)])
    | Ok confFromLabel =>
      if bool_decide (0 < size (TCP_Routers (TCP confFromLabel))
                      ∨ 0 < size (TCP_Services (TCP confFromLabel)))%nat
      then
        match buildTCPServiceConfiguration item (TCP confFromLabel) with
        | Err err => (None, logs ++ [LogLine (svcName item) (Error_ err)])
        | Ok tcp =>
          let confFromLabel :=
            mkConfiguration (HTTP confFromLabel)
              (provider_BuildTCPRouterConfiguration tcp) in
          if bool_decide (size (HTTP_Routers (HTTP confFromLabel)) = 0
                          ∧ size (HTTP_Middlewares (HTTP confFromLabel)) = 0
                          ∧ size (HTTP_Services (HTTP confFromLabel)) = 0)%nat
          then (Some confFromLabel, logs)
          else after logs (buildConfiguration_http p item confFromLabel)
        end
      else after logs (buildConfiguration_http p item confFromLabel)
    end.

(** [configurations[svcName] = confFromLabel], when the iteration gets
    there. *)
Definition store (key : string) (r : option Configuration)
    (configurations : gmap string Configuration) : gmap string Configuration :=
  match r with
  | Some confFromLabel => <[key := confFromLabel]> configurations
  | None => configurations
  end.

(** The loop: [configurations] and the log, item after item. *)
Definition buildConfiguration_step (p : Provider)
    (st : gmap string Configuration * list logLine) (item : itemData)
    : gmap string Configuration * list logLine :=
  let '(r, logs) := buildConfiguration_item p item in
  (store (svcName item) r st.1, st.2 ++ logs).

Definition buildConfiguration_loop (p : Provider) (items : list itemData)
    : gmap string Configuration * list logLine :=
  foldl (buildConfiguration_step p) (∅, []) items.

(** [buildConfiguration]: the merge of the collected fragments. *)
Definition buildConfiguration (p : Provider) (items : list itemData) : Configuration :=
  provider_Merge (buildConfiguration_loop p items).1.

(** The iteration of an item ends in [continue] after a failure of the
    decoder or of a completer that it ran. *)
Inductive itemFails (item : itemData) : Prop :=
| decodeFails err :
    label_DecodeConfiguration (item_Labels item) = Err err →
    itemFails item
| tcpFails confFromLabel err :
    label_DecodeConfiguration (item_Labels item) = Ok confFromLabel →
    (0 < size (TCP_Routers (TCP confFromLabel))
     ∨ 0 < size (TCP_Services (TCP confFromLabel)))%nat →
    buildTCPServiceConfiguration item (TCP confFromLabel) = Err err →
    itemFails item
| httpFails confFromLabel err :
    label_DecodeConfiguration (item_Labels item) = Ok confFromLabel →
    ¬ ((0 < size (TCP_Routers (TCP confFromLabel))
        ∨ 0 < size (TCP_Services (TCP confFromLabel)))
       ∧ size (HTTP_Routers (HTTP confFromLabel)) = 0
       ∧ size (HTTP_Middlewares (HTTP confFromLabel)) = 0
       ∧ size (HTTP_Services (HTTP confFromLabel)) = 0)%nat →
    buildServiceConfiguration item (HTTP confFromLabel) = Err err →
    itemFails item.

End Provider.

(** ** A concrete provider

    Small stand-ins for the collaborators, on which the definitions above
    can be run: a decoder that understands three labels, a matcher that
    looks a tag up, router synthesisers that add one router when there is
    none, and a merge that takes the union of the fragments. *)
Module Demo.

Definition defaults : Defaults := {|
  Server_SetDefaults := Server_set_Scheme "http";
  ServersLoadBalancer_SetDefaults := id;
  TCPServersLoadBalancer_SetDefaults := id
|}.

Abbreviation Conf := (@Configuration string unit string).
Abbreviation Prov := (@Provider string).

Definition decode (labels : gmap string string) : result Conf :=
  if bool_decide (is_Some (labels !! "invalid")) then Err (errors_New "invalid label")
  else
    let tcp :=
      match labels !! "tcp.service" with
      | Some name =>
        mkTCPConfiguration ∅ {[ name := mkTCPService (Some (mkTCPServersLoadBalancer [])) ]}
      | None => mkTCPConfiguration ∅ ∅
      end in
    let http :=
      match labels !! "http.port" with
      | Some port =>
        mkHTTPConfiguration ∅ ∅
          {[ "web" := mkService (Some (mkServersLoadBalancer [mkServer "" "http" port])) ]}
      | None => mkHTTPConfiguration ∅ ∅ ∅
      end in
    Ok (mkConfiguration http tcp).

Definition matchTags (tags : list string) (constraints : string) : result bool :=
  if bool_decide (constraints = "") then Ok true
  else if bool_decide (constraints = "(") then Err (errors_New "unexpected end of expression")
  else Ok (bool_decide (constraints ∈ tags)).

Definition tcpRouters (c : @TCPConfiguration string) : @TCPConfiguration string :=
  if bool_decide (size (TCP_Routers c) = 0%nat)
  then mkTCPConfiguration ((λ _, "HostSNI(*)") <$> TCP_Services c) (TCP_Services c)
  else c.

Definition httpRouters (c : @HTTPConfiguration string unit) (name tpl : string)
    (m : model) : @HTTPConfiguration string unit :=
  if bool_decide (size (HTTP_Routers c) = 0%nat)
  then mkHTTPConfiguration {[ name := tpl +:+ model_Name m ]}
         (HTTP_Middlewares c) (HTTP_Services c)
  else c.

Definition emptyConf : Conf :=
  mkConfiguration (mkHTTPConfiguration ∅ ∅ ∅) (mkTCPConfiguration ∅ ∅).

Definition merge (configurations : gmap string Conf) : Conf :=
  map_fold
    (λ _ c acc,
       mkConfiguration
         (mkHTTPConfiguration
            (HTTP_Routers (HTTP c) ∪ HTTP_Routers (HTTP acc))
            (HTTP_Middlewares (HTTP c) ∪ HTTP_Middlewares (HTTP acc))
            (HTTP_Services (HTTP c) ∪ HTTP_Services (HTTP acc)))
         (mkTCPConfiguration
            (TCP_Routers (TCP c) ∪ TCP_Routers (TCP acc))
            (TCP_Services (TCP c) ∪ TCP_Services (TCP acc))))
    emptyConf configurations.

Definition collaborators : @Collaborators string unit string string := {|
  label_DecodeConfiguration := decode;
  constraints_MatchTags := matchTags;
  provider_BuildTCPRouterConfiguration := tcpRouters;
  provider_BuildRouterConfiguration := httpRouters;
  provider_Merge := merge
|}.

Definition prov : Prov := mkProvider "" "Host:".

Definition item (node name id address port status : string)
    (labels : list (string * string)) : itemData :=
  mkItem id node name address port status (list_to_map labels) [] (mkExtraConf true).

Definition run (items : list itemData) : gmap string Conf * list logLine :=
  @buildConfiguration_loop _ _ _ _ defaults collaborators prov items.

(** Items of a registry snapshot. *)
Definition web : itemData := item "n1" "svc" "i1" "10.0.0.5" "8080" "passing" [].
Definition webAgain : itemData := item "n1" "svc" "i1" "10.0.0.9" "9090" "warning" [].
Definition web2 : itemData := item "n1" "svc" "i2" "10.0.0.6" "8080" "passing" [].
Definition invalid : itemData :=
  item "n1" "svc" "i3" "10.0.0.7" "8080" "passing" [("invalid", "true")].
Definition critical : itemData := item "n1" "svc" "i4" "10.0.0.8" "8080" "critical" [].
Definition db : itemData :=
  item "n1" "db" "i5" "10.0.0.10" "5432" "passing" [("tcp.service", "db")].
Definition noAddress : itemData := item "n1" "svc" "i6" "" "8080" "passing" [].
Definition noAddressNoPort : itemData := item "n1" "svc" "i7" "" "" "passing" [].
Definition noPort : itemData := item "n1" "svc" "i8" "10.0.0.5" "" "passing" [].
Definition dashed1 : itemData := item "a" "s" "s-b" "10.0.1.1" "80" "passing" [].
Definition dashed2 : itemData := item "a-s" "s" "b" "10.0.1.2" "80" "passing" [].

(** Load balancers as a decoder may leave them. *)
Definition lbPort8080 : ServersLoadBalancer :=
  mkServersLoadBalancer [mkServer "" "http" "8080"].
Definition tcpPort8080 : TCPServersLoadBalancer :=
  mkTCPServersLoadBalancer [mkTCPServer "" "8080"].
Definition lbTwoSlots : ServersLoadBalancer :=
  mkServersLoadBalancer [mkServer "" "http" "80"; mkServer "http://10.9.9.9:81" "" ""].
Definition tcpTwoSlots : TCPServersLoadBalancer :=
  mkTCPServersLoadBalancer [mkTCPServer "" "80"; mkTCPServer "10.9.9.9:81" ""].

(** The fragments these items give rise to. *)
Definition httpFragment (name url : string) : Conf :=
  mkConfiguration
    (mkHTTPConfiguration {[ name := "Host:" +:+ name ]} ∅
       {[ name := mkService (Some (mkServersLoadBalancer [mkServer url "" ""])) ]})
    (mkTCPConfiguration ∅ ∅).

Definition dbDecoded : Conf :=
  mkConfiguration (mkHTTPConfiguration ∅ ∅ ∅)
    (mkTCPConfiguration ∅ {[ "db" := mkTCPService (Some (mkTCPServersLoadBalancer [])) ]}).

Definition dbCompleted : @TCPConfiguration string :=
  mkTCPConfiguration ∅
    {[ "db" := mkTCPService
                 (Some (mkTCPServersLoadBalancer [mkTCPServer "10.0.0.10:5432" ""])) ]}.

(** An item whose labels declare a service in both sections. *)
Definition both : itemData :=
  item "n1" "api" "i9" "10.0.0.11" "7000" "passing"
    [("tcp.service", "raw"); ("http.port", "9000")].

Definition bothDecoded : Conf :=
  mkConfiguration
    (mkHTTPConfiguration ∅ ∅
       {[ "web" := mkService (Some (mkServersLoadBalancer [mkServer "" "http" "9000"])) ]})
    (mkTCPConfiguration ∅ {[ "raw" := mkTCPService (Some (mkTCPServersLoadBalancer [])) ]}).

Definition bothTCP : @TCPConfiguration string :=
  mkTCPConfiguration ∅
    {[ "raw" := mkTCPService
                  (Some (mkTCPServersLoadBalancer [mkTCPServer "10.0.0.11:7000" ""])) ]}.

Definition bothHTTP : @HTTPConfiguration string unit :=
  mkHTTPConfiguration ∅ ∅
    {[ "web" := mkService
                  (Some (mkServersLoadBalancer [mkServer "http://10.0.0.11:7000" "" ""])) ]}.

Definition webHTTP : @HTTPConfiguration string unit :=
  mkHTTPConfiguration ∅ ∅
    {[ "svc" := mkService
                  (Some (mkServersLoadBalancer [mkServer "http://10.0.0.5:8080" "" ""])) ]}.

(** Sections as a decoder may leave them: without services, with two
    services, with a service that has no load balancer. *)
Definition noHTTP : @HTTPConfiguration string unit := mkHTTPConfiguration ∅ ∅ ∅.
Definition noTCP : @TCPConfiguration string := mkTCPConfiguration ∅ ∅.


Definition nilHTTP : @HTTPConfiguration string unit :=
  mkHTTPConfiguration ∅ ∅ {[ "broken" := mkService None ]}.
Definition nilTCP : @TCPConfiguration string :=
  mkTCPConfiguration ∅ {[ "broken" := mkTCPService None ]}.

End Demo.

(** * Properties *)

(** ** Endpoint resolvers *)

Section ResolverFacts.

Context `{!Defaults}.

(** Unfold a resolver call and split on every test it makes. *)
Ltac resolver :=
  unfold addServerTCP, addServer, TCPServers0, Servers0; simpl;
  repeat (case_decide; simpl in * ); simplify_eq/=; try done.

(** A resolver never turns a load balancer into nil, and reports the nil one. *)
Lemma addServerTCP_nil item :
  addServerTCP item None = (None, Some errLoadBalancerNotDefined).
Proof. done. Qed.

Lemma addServer_nil item :
  addServer item None = (None, Some errLoadBalancerNotDefined).
Proof. done. Qed.

Lemma addServerTCP_is_Some item lb : is_Some (addServerTCP item (Some lb)).1.
Proof. resolver; eauto. Qed.

Lemma addServer_is_Some item lb : is_Some (addServer item (Some lb)).1.
Proof. resolver; destruct (Servers lb); resolver; eauto. Qed.

(** The transport-layer resolver fails on every item without a port,
    whatever the slot holds. *)
Lemma addServerTCP_no_item_port item lb :
  item_Port item = "" → (addServerTCP item (Some lb)).2 = Some errPortMissing.
Proof. intros Hp. resolver. Qed.

(** With a port on the item, the outcome is decided by the address. *)
Lemma addServerTCP_item_port item lb :
  item_Port item ≠ "" →
  (addServerTCP item (Some lb)).2 =
    if decide (item_Address item = "") then Some errAddressMissing else None.
Proof. intros Hp. resolver. Qed.

Lemma addServer_outcome item lb :
  (addServer item (Some lb)).2 =
    if decide (chosenPort item lb = "") then Some errPortMissing
    else if decide (item_Address item = "") then Some errAddressMissing
    else None.
Proof.
  unfold chosenPort. destruct lb as [[|s l]]; resolver.
Qed.

(** C1 (as amended). For an item without address and a load balancer that
    is not nil, [addServerTCP] returns the missing-address error when the
    item has a port, and [addServer] returns it when the item has a port
    or slot 0 already carries one. *)
Theorem missing_address_after_port item tlb lb :
  item_Address item = "" →
  item_Port item ≠ "" ∨ (∃ s, Servers lb !! 0%nat = Some s ∧ Server_Port s ≠ "") →
  (item_Port item ≠ "" →
     (addServerTCP item (Some tlb)).2 = Some errAddressMissing)
  ∧ (addServer item (Some lb)).2 = Some errAddressMissing.
Proof.
  intros Ha Hport. split.
  - intros Hp. rewrite addServerTCP_item_port by done. by rewrite decide_True.
  - rewrite addServer_outcome. rewrite decide_False, decide_True; [done..|].
    unfold chosenPort. case_decide; [done|].
    destruct Hport as [?|(s & -> & Hs)]; done.
Qed.

(** C8. An item without port, on a load balancer whose slot 0 (if any)
    carries no port, makes both resolvers fail with the missing-port
    error. *)
Theorem missing_port item tlb lb :
  item_Port item = "" →
  (∀ s, TCPServers tlb !! 0%nat = Some s → TCPServer_Port s = "") →
  (∀ s, Servers lb !! 0%nat = Some s → Server_Port s = "") →
  (addServerTCP item (Some tlb)).2 = Some errPortMissing
  ∧ (addServer item (Some lb)).2 = Some errPortMissing.
Proof.
  intros Hp _ Hslot. split; [by apply addServerTCP_no_item_port|].
  rewrite addServer_outcome, decide_True; [done|].
  unfold chosenPort. rewrite decide_False by (by intros []).
  destruct (Servers lb !! 0%nat) as [s|] eqn:E; simpl; auto.
Qed.

(** C6 (as amended). After a successful [addServerTCP], and after a
    successful [addServer] on an item that has a port, the [Port] field of
    slot 0 is empty. *)
Theorem port_cleared_on_success item tlb tlb' lb lb' :
  addServerTCP item (Some tlb) = (Some tlb', None) →
  item_Port item ≠ "" →
  addServer item (Some lb) = (Some lb', None) →
  (∃ s, TCPServers tlb' !! 0%nat = Some s ∧ TCPServer_Port s = "")
  ∧ (∃ s, Servers lb' !! 0%nat = Some s ∧ Server_Port s = "").
Proof.
  intros Ht Hp Hh. split.
  - revert Ht. destruct tlb as [[|s l]]; resolver; intros; simplify_eq/=; eauto.
  - revert Hh. destruct lb as [[|s l]]; resolver; intros; simplify_eq/=; eauto.
Qed.

(** On the fallback path [addServer] leaves the port in the slot. *)
Lemma addServer_fallback_keeps_port item lb lb' :
  item_Port item = "" →
  addServer item (Some lb) = (Some lb', None) →
  ∃ s s', Servers lb !! 0%nat = Some s ∧ Servers lb' !! 0%nat = Some s'
          ∧ Server_Port s' = Server_Port s ∧ Server_Port s ≠ "".
Proof.
  intros Hp. destruct lb as [[|s l]]; resolver. intros; simplify_eq/=.
  by eexists _, _.
Qed.

(** C9. On a load balancer with two or more slots, both resolvers, whether
    they succeed or fail, keep the number of slots and leave every slot
    after the first as it was. *)
Theorem other_slots_untouched item tlb lb :
  (2 ≤ length (TCPServers tlb))%nat →
  (2 ≤ length (Servers lb))%nat →
  (∃ tlb', (addServerTCP item (Some tlb)).1 = Some tlb'
           ∧ length (TCPServers tlb') = length (TCPServers tlb)
           ∧ ∀ i, (0 < i)%nat → TCPServers tlb' !! i = TCPServers tlb !! i)
  ∧ (∃ lb', (addServer item (Some lb)).1 = Some lb'
            ∧ length (Servers lb') = length (Servers lb)
            ∧ ∀ i, (0 < i)%nat → Servers lb' !! i = Servers lb !! i).
Proof.
  intros Ht Hh. split.
  - destruct tlb as [[|s l]]; simpl in *; [lia|].
    resolver; eexists; (split; [done|]); (split; [done|]);
      intros [|i] ?; (lia || done).
  - destruct lb as [[|s l]]; simpl in *; [lia|].
    resolver; eexists; (split; [done|]); (split; [done|]);
      intros [|i] ?; (lia || done).
Qed.

(** Nor are the later slots read: two load balancers with the same slot 0
    get the same verdict and the same new slot 0. *)
Lemma addServer_reads_slot0_only item s l1 l2 :
  (addServer item (Some (mkServersLoadBalancer (s :: l1)))).2
  = (addServer item (Some (mkServersLoadBalancer (s :: l2)))).2
  ∧ (λ lb, head (Servers lb)) <$> (addServer item (Some (mkServersLoadBalancer (s :: l1)))).1
    = (λ lb, head (Servers lb)) <$> (addServer item (Some (mkServersLoadBalancer (s :: l2)))).1.
Proof. resolver. Qed.

Lemma addServerTCP_reads_slot0_only item s l1 l2 :
  (addServerTCP item (Some (mkTCPServersLoadBalancer (s :: l1)))).2
  = (addServerTCP item (Some (mkTCPServersLoadBalancer (s :: l2)))).2
  ∧ (λ lb, head (TCPServers lb))
      <$> (addServerTCP item (Some (mkTCPServersLoadBalancer (s :: l1)))).1
    = (λ lb, head (TCPServers lb))
      <$> (addServerTCP item (Some (mkTCPServersLoadBalancer (s :: l2)))).1.
Proof. resolver. Qed.

(** The port that ends up in the endpoint of [addServer]: the item's own
    when it has one, otherwise the one slot 0 held. *)
Lemma addServer_endpoint item lb lb' :
  addServer item (Some lb) = (Some lb', None) →
  ∃ s scheme,
    Servers lb' !! 0%nat = Some s
    ∧ Server_URL s
      = scheme +:+ "://" +:+ net_JoinHostPort (item_Address item) (chosenPort item lb)
    ∧ Server_Scheme s = "".
Proof.
  unfold chosenPort. destruct lb as [[|s l]]; resolver; intros; simplify_eq/=; eauto.
Qed.

End ResolverFacts.

(** ** Fragment completers *)

Section CompleterFacts.

Context `{!Defaults}.

(** When every service resolves, the loop completes each of them in place. *)
Lemma addServersTCP_Ok item services :
  Forall (λ ns, (addServerTCP item (TCPLoadBalancer ns.2)).2 = None) services →
  addServersTCP item services
  = Ok (prod_map id (λ s, mkTCPService (addServerTCP item (TCPLoadBalancer s)).1)
          <$> services).
Proof.
  induction 1 as [|[name s] l Hs _ IH]; [done|]. simpl in *.
  destruct (addServerTCP item (TCPLoadBalancer s)) as [lb [e|]]; [done|].
  by rewrite IH.
Qed.

Lemma addServers_Ok item services :
  Forall (λ ns, (addServer item (LoadBalancer ns.2)).2 = None) services →
  addServers item services
  = Ok (prod_map id (λ s, mkService (addServer item (LoadBalancer s)).1) <$> services).
Proof.
  induction 1 as [|[name s] l Hs _ IH]; [done|]. simpl in *.
  destruct (addServer item (LoadBalancer s)) as [lb [e|]]; [done|].
  by rewrite IH.
Qed.

(** When one of them does not, the loop returns the error of one that fails. *)
Lemma addServersTCP_Err item services :
  ¬ Forall (λ ns, (addServerTCP item (TCPLoadBalancer ns.2)).2 = None) services →
  ∃ ns err, ns ∈ services
            ∧ (addServerTCP item (TCPLoadBalancer ns.2)).2 = Some err
            ∧ addServersTCP item services = Err err.
Proof.
  induction services as [|[name s] l IH]; intros Hn; [by destruct Hn|].
  simpl. destruct (addServerTCP item (TCPLoadBalancer s)) as [lb [e|]] eqn:E.
  - exists (name, s), e. simpl. rewrite E. split_and!; [left|done..].
  - destruct IH as (ns & err & ? & ? & ->).
    { intros HF. apply Hn. constructor; [simpl; by rewrite E|done]. }
    exists ns, err. split_and!; [by right|done..].
Qed.

Lemma addServers_Err item services :
  ¬ Forall (λ ns, (addServer item (LoadBalancer ns.2)).2 = None) services →
  ∃ ns err, ns ∈ services
            ∧ (addServer item (LoadBalancer ns.2)).2 = Some err
            ∧ addServers item services = Err err.
Proof.
  induction services as [|[name s] l IH]; intros Hn; [by destruct Hn|].
  simpl. destruct (addServer item (LoadBalancer s)) as [lb [e|]] eqn:E.
  - exists (name, s), e. simpl. rewrite E. split_and!; [left|done..].
  - destruct IH as (ns & err & ? & ? & ->).
    { intros HF. apply Hn. constructor; [simpl; by rewrite E|done]. }
    exists ns, err. split_and!; [by right|done..].
Qed.

(** Hence the order in which the map is walked decides neither whether the
    loop succeeds nor what it leaves behind. *)
Lemma addServersTCP_Permutation item l1 l2 :
  l1 ≡ₚ l2 →
  match addServersTCP item l1, addServersTCP item l2 with
  | Ok r1, Ok r2 => r1 ≡ₚ r2
  | Err _, Err _ => True
  | _, _ => False
  end.
Proof.
  intros Hp.
  destruct (decide (Forall (λ ns, (addServerTCP item (TCPLoadBalancer ns.2)).2 = None) l1))
    as [HF|HF].
  - rewrite (addServersTCP_Ok _ l1) by done.
    rewrite (addServersTCP_Ok _ l2) by (by rewrite <-Hp). by apply fmap_Permutation.
  - destruct (addServersTCP_Err item l1 HF) as (? & ? & _ & _ & ->).
    destruct (addServersTCP_Err item l2) as (? & ? & _ & _ & ->); [by rewrite <-Hp|done].
Qed.

Lemma addServers_Permutation item l1 l2 :
  l1 ≡ₚ l2 →
  match addServers item l1, addServers item l2 with
  | Ok r1, Ok r2 => r1 ≡ₚ r2
  | Err _, Err _ => True
  | _, _ => False
  end.
Proof.
  intros Hp.
  destruct (decide (Forall (λ ns, (addServer item (LoadBalancer ns.2)).2 = None) l1))
    as [HF|HF].
  - rewrite (addServers_Ok _ l1) by done.
    rewrite (addServers_Ok _ l2) by (by rewrite <-Hp). by apply fmap_Permutation.
  - destruct (addServers_Err item l1 HF) as (? & ? & _ & _ & ->).
    destruct (addServers_Err item l2) as (? & ? & _ & _ & ->); [by rewrite <-Hp|done].
Qed.

End CompleterFacts.

(** ** Keys *)

Lemma append_inv_head (a x y : string) : a +:+ x = a +:+ y → x = y.
Proof. induction a as [|c a IH]; simpl; [done|]. intros [=]. auto. Qed.

(** Two strings cut at a separator that their first parts do not contain
    are cut at the same place. *)
Lemma append_sep_inj (c : ascii) (a b x y : string) :
  containsByte c a = false →
  containsByte c b = false →
  a +:+ String c x = b +:+ String c y →
  a = b ∧ x = y.
Proof.
  revert b. induction a as [|a0 a IH]; intros [|b0 b]; simpl.
  - by intros _ _ [=].
  - intros _ Hb [= <- _]. by rewrite Ascii.eqb_refl in Hb.
  - intros Ha _ [= -> _]. by rewrite Ascii.eqb_refl in Ha.
  - destruct (Ascii.eqb a0 c) eqn:Ea; [done|].
    destruct (Ascii.eqb b0 c) eqn:Eb; [done|].
    intros Ha Hb [= -> Heq]. destruct (IH b Ha Hb Heq) as [-> ->]. done.
Qed.

(** ** Eligibility filter and assembler *)

Section AssemblerFacts.

Context {Router Middleware TCPRouter Template : Type}.
Context `{!Defaults} `{!@Collaborators Router Middleware TCPRouter Template}.

Implicit Types (p : @Provider Template) (item : itemData).
Implicit Types (m : gmap string (@Configuration Router Middleware TCPRouter)).

(** A completed section holds the services of the decoded one (or the
    synthesised one), each with its load balancer resolved. *)
Lemma buildServiceConfiguration_Ok item
    (configuration : @HTTPConfiguration Router Middleware) :
  let services :=
    if decide (size (HTTP_Services configuration) = 0%nat)
    then {[ item_Name item :=
              mkService (Some (ServersLoadBalancer_SetDefaults ServersLoadBalancer_zero)) ]}
    else HTTP_Services configuration in
  map_Forall (λ _ s, (addServer item (LoadBalancer s)).2 = None) services →
  buildServiceConfiguration item configuration
  = Ok (mkHTTPConfiguration (HTTP_Routers configuration) (HTTP_Middlewares configuration)
          ((λ s, mkService (addServer item (LoadBalancer s)).1) <$> services)).
Proof.
  intros services HF. unfold buildServiceConfiguration. fold services.
  rewrite addServers_Ok.
  - by rewrite list_to_map_fmap, list_to_map_to_list.
  - apply Forall_forall. intros [n s] Hin%elem_of_map_to_list. by apply (HF n).
Qed.

Lemma buildTCPServiceConfiguration_Ok item
    (configuration : @TCPConfiguration TCPRouter) :
  let services :=
    if decide (size (TCP_Services configuration) = 0%nat)
    then {[ item_Name item :=
              mkTCPService
                (Some (TCPServersLoadBalancer_SetDefaults TCPServersLoadBalancer_zero)) ]}
    else TCP_Services configuration in
  map_Forall (λ _ s, (addServerTCP item (TCPLoadBalancer s)).2 = None) services →
  buildTCPServiceConfiguration item configuration
  = Ok (mkTCPConfiguration (TCP_Routers configuration)
          ((λ s, mkTCPService (addServerTCP item (TCPLoadBalancer s)).1) <$> services)).
Proof.
  intros services HF. unfold buildTCPServiceConfiguration. fold services.
  rewrite addServersTCP_Ok.
  - by rewrite list_to_map_fmap, list_to_map_to_list.
  - apply Forall_forall. intros [n s] Hin%elem_of_map_to_list. by apply (HF n).
Qed.

(** The filter answers yes with an empty log, or no with one line. *)
Lemma keepContainer_cases p ctxSvc item :
  keepContainer p ctxSvc item = (true, [])
  ∨ ∃ line, keepContainer p ctxSvc item = (false, [line]).
Proof.
  unfold keepContainer.
  destruct (Enable _); simpl; [|eauto].
  destruct (constraints_MatchTags _ _) as [[]|]; simpl; [|eauto..].
  case_bool_decide; eauto.
Qed.

Lemma keepContainer_true p ctxSvc item :
  (keepContainer p ctxSvc item).1 = true
  ↔ Enable (item_ExtraConf item) = true
    ∧ constraints_MatchTags (item_Tags item) (Constraints p) = Ok true
    ∧ (item_Status item = HealthPassing ∨ item_Status item = HealthWarning).
Proof.
  unfold keepContainer.
  destruct (Enable _); simpl; [|by split; [|intros (? & _)]].
  destruct (constraints_MatchTags _ _) as [[]|]; simpl;
    [|by split; [|intros (_ & ? & _)]..].
  case_bool_decide as Hs; simpl.
  - split; [done|]. intros (_ & _ & [?|?]); by destruct Hs.
  - split; [intros _|done]. split_and!; [done..|].
    destruct (decide (item_Status item = HealthPassing)); [by left|].
    destruct (decide (item_Status item = HealthWarning)); [by right|].
    by destruct Hs.
Qed.

(** An item the filter rejects is not decoded at all. *)
Lemma buildConfiguration_item_rejected p item :
  (keepContainer p (svcName item) item).1 = false →
  (buildConfiguration_item p item).1 = None.
Proof.
  unfold buildConfiguration_item.
  destruct (keepContainer p (svcName item) item) as [[] logs]; simpl; done.
Qed.

(** Unfold one iteration for an item that passed the filter. *)
Lemma buildConfiguration_item_kept p item :
  (keepContainer p (svcName item) item).1 = true →
  buildConfiguration_item p item =
    match label_DecodeConfiguration (item_Labels item) with
    | Err err => (None, [LogLine (svcName item) (Error_ err)])
    | Ok confFromLabel =>
      if bool_decide (0 < size (TCP_Routers (TCP confFromLabel))
                      ∨ 0 < size (TCP_Services (TCP confFromLabel)))%nat
      then
        match buildTCPServiceConfiguration item (TCP confFromLabel) with
        | Err err => (None, [LogLine (svcName item) (Error_ err)])
        | Ok tcp =>
          if bool_decide (size (HTTP_Routers (HTTP confFromLabel)) = 0
                          ∧ size (HTTP_Middlewares (HTTP confFromLabel)) = 0
                          ∧ size (HTTP_Services (HTTP confFromLabel)) = 0)%nat
          then (Some (mkConfiguration (HTTP confFromLabel)
                        (provider_BuildTCPRouterConfiguration tcp)), [])
          else buildConfiguration_http p item
                 (mkConfiguration (HTTP confFromLabel)
                    (provider_BuildTCPRouterConfiguration tcp))
        end
      else buildConfiguration_http p item confFromLabel
    end.
Proof.
  intros Hk. unfold buildConfiguration_item.
  destruct (keepContainer_cases p (svcName item) item) as [E|[l E]];
    rewrite E in *; [|done]. simpl. unfold after. simpl.
  repeat case_match; simplify_eq/=; try done; by destruct buildConfiguration_http.
Qed.

(** An iteration that stores a fragment logs nothing. *)
Lemma buildConfiguration_item_silent p item confFromLabel :
  (buildConfiguration_item p item).1 = Some confFromLabel →
  (buildConfiguration_item p item).2 = [].
Proof.
  destruct (keepContainer p (svcName item) item).1 eqn:Hk.
  - rewrite buildConfiguration_item_kept by done. unfold buildConfiguration_http.
    repeat case_match; simplify_eq/=; done.
  - by rewrite buildConfiguration_item_rejected.
Qed.

(** An item that fails stores nothing. *)
Lemma buildConfiguration_item_fails p item :
  itemFails item → (buildConfiguration_item p item).1 = None.
Proof.
  intros Hf. destruct (keepContainer p (svcName item) item).1 eqn:Hk;
    [|by apply buildConfiguration_item_rejected].
  rewrite buildConfiguration_item_kept by done. unfold buildConfiguration_http.
  destruct Hf as [err Hd|conf err Hd Ht He|conf err Hd Hn He]; rewrite Hd.
  - done.
  - rewrite bool_decide_eq_true_2 by done. by rewrite He.
  - simpl. rewrite He. repeat case_match; simplify_eq/=; try done.
    destruct Hn. split; [by eapply bool_decide_eq_true_1|by eapply bool_decide_eq_true_1].
Qed.

(** *** The loop *)

Lemma buildConfiguration_step_fst p st item :
  (buildConfiguration_step p st item).1
  = store (svcName item) (buildConfiguration_item p item).1 st.1.
Proof. unfold buildConfiguration_step. by destruct buildConfiguration_item. Qed.

Lemma buildConfiguration_step_snd p st item :
  (buildConfiguration_step p st item).2 = st.2 ++ (buildConfiguration_item p item).2.
Proof. unfold buildConfiguration_step. by destruct buildConfiguration_item. Qed.

(** The map and the log evolve independently of each other. *)
Lemma loop_fst p items st :
  (foldl (buildConfiguration_step p) st items).1
  = foldl (λ m i, store (svcName i) (buildConfiguration_item p i).1 m) st.1 items.
Proof.
  revert st. induction items as [|i l IH]; intros st; [done|].
  simpl. by rewrite IH, buildConfiguration_step_fst.
Qed.

Lemma loop_snd p items st :
  (foldl (buildConfiguration_step p) st items).2
  = st.2 ++ mjoin ((λ i, (buildConfiguration_item p i).2) <$> items).
Proof.
  revert st. induction items as [|i l IH]; intros st; simpl.
  - by rewrite app_nil_r.
  - by rewrite IH, buildConfiguration_step_snd, <-app_assoc.
Qed.

Lemma loop_pair p items :
  buildConfiguration_loop p items
  = (foldl (λ m i, store (svcName i) (buildConfiguration_item p i).1 m) ∅ items,
     mjoin ((λ i, (buildConfiguration_item p i).2) <$> items)).
Proof.
  unfold buildConfiguration_loop.
  rewrite (surjective_pairing (foldl _ _ _)). by rewrite loop_fst, loop_snd.
Qed.

(** Items that store nothing under [k] leave the entry of [k] alone. *)
Lemma fold_lookup_skip p items m k :
  (∀ i, i ∈ items → svcName i = k → (buildConfiguration_item p i).1 = None) →
  foldl (λ m i, store (svcName i) (buildConfiguration_item p i).1 m) m items !! k
  = m !! k.
Proof.
  revert m. induction items as [|i l IH]; intros m Hk; [done|].
  simpl. rewrite IH by (intros; apply Hk; [by right|done]).
  unfold store. destruct (buildConfiguration_item p i).1 eqn:E; [|done].
  apply lookup_insert_ne. intros Heq. by rewrite (Hk i) in E by (done || left).
Qed.

(** Entries are never removed. *)
Lemma fold_lookup_mono p items m k :
  is_Some (m !! k) →
  is_Some (foldl (λ m i, store (svcName i) (buildConfiguration_item p i).1 m) m items
             !! k).
Proof.
  revert m. induction items as [|i l IH]; intros m Hk; [done|].
  simpl. apply IH. unfold store. destruct (buildConfiguration_item p i).1; [|done].
  rewrite lookup_insert. case_decide; [by eexists|done].
Qed.

(** Every item that stores a fragment has its key in the final map. *)
Lemma fold_lookup_member p items m item confFromLabel :
  item ∈ items →
  (buildConfiguration_item p item).1 = Some confFromLabel →
  is_Some (foldl (λ m i, store (svcName i) (buildConfiguration_item p i).1 m) m items
             !! svcName item).
Proof.
  intros Hin Hc. revert m.
  induction items as [|i l IH]; intros m; [by apply elem_of_nil in Hin|].
  apply elem_of_cons in Hin as [<-|Hin]; simpl; [|by apply IH].
  apply fold_lookup_mono. rewrite Hc. simpl. rewrite lookup_insert_eq. by eexists.
Qed.

(** A later store under [k] hides an earlier one. *)
Lemma fold_insert_absorb p items m k c1 c2 :
  <[k := c2]>
    (foldl (λ m i, store (svcName i) (buildConfiguration_item p i).1 m)
       (<[k := c1]> m) items)
  = <[k := c2]>
      (foldl (λ m i, store (svcName i) (buildConfiguration_item p i).1 m) m items).
Proof.
  revert m. induction items as [|i l IH]; intros m; simpl.
  - apply insert_insert_eq.
  - unfold store at 2 4. destruct (buildConfiguration_item p i).1 as [c|]; [|apply IH].
    destruct (decide (svcName i = k)) as [->|Hne].
    + by rewrite insert_insert_eq.
    + rewrite insert_insert_ne by done. apply IH.
Qed.

(** Taking out an item that stores nothing changes the map handed to the
    merge in no way. *)
Lemma loop_remove_None p l1 item l2 :
  (buildConfiguration_item p item).1 = None →
  (buildConfiguration_loop p (l1 ++ item :: l2)).1
  = (buildConfiguration_loop p (l1 ++ l2)).1.
Proof.
  intros Hn. rewrite !loop_pair. simpl. rewrite !foldl_app. simpl. by rewrite Hn.
Qed.

(** *** The claims on the assembler *)

(** C3. [buildConfiguration] is a total function into configurations: it
    has no error result. An item on which the decoder, the TCP completer or
    the HTTP completer fails stores no fragment, and the map handed to the
    merge, hence the configuration returned, is the one obtained from the
    list without that item. *)
Theorem failing_item_contributes_nothing p l1 item l2 :
  itemFails item →
  (buildConfiguration_item p item).1 = None
  ∧ (buildConfiguration_loop p (l1 ++ item :: l2)).1
    = (buildConfiguration_loop p (l1 ++ l2)).1
  ∧ buildConfiguration p (l1 ++ item :: l2) = buildConfiguration p (l1 ++ l2).
Proof.
  intros Hf%(buildConfiguration_item_fails p). split_and!; [done|..].
  - by apply loop_remove_None.
  - unfold buildConfiguration. by rewrite loop_remove_None.
Qed.

(** C4. [keepContainer] answers true exactly when the item is enabled, the
    matcher answers a match and no error, and the status is passing or
    warning. Hence a key all of whose items have another status (critical,
    or anything unknown) is absent from the map handed to the merge. *)
Theorem keepContainer_exactly p ctxSvc item items k :
  ((keepContainer p ctxSvc item).1 = true
   ↔ Enable (item_ExtraConf item) = true
     ∧ constraints_MatchTags (item_Tags item) (Constraints p) = Ok true
     ∧ (item_Status item = HealthPassing ∨ item_Status item = HealthWarning))
  ∧ ((∀ i, i ∈ items → svcName i = k →
        item_Status i ≠ HealthPassing ∧ item_Status i ≠ HealthWarning) →
     (buildConfiguration_loop p items).1 !! k = None).
Proof.
  split; [apply keepContainer_true|].
  intros Hbad. rewrite loop_pair. simpl. rewrite fold_lookup_skip; [done|].
  intros i Hi Hk. apply buildConfiguration_item_rejected.
  destruct (keepContainer p (svcName i) i).1 eqn:E; [|done].
  apply keepContainer_true in E as (_ & _ & Hs).
  destruct (Hbad i Hi Hk) as [??]. by destruct Hs.
Qed.

(** C5 (as amended). The key is a function of the triple. Triples whose
    node and service name contain no dash, and triples with the same node
    and service name, get the same key only when they are equal. Two items
    of the pass that store a fragment under different keys both have their
    key in the map handed to the merge. *)
Theorem svcName_separates p i1 i2 items c1 c2 :
  ((item_Node i1, item_Name i1, item_ID i1) = (item_Node i2, item_Name i2, item_ID i2) →
   svcName i1 = svcName i2)
  ∧ (containsByte "-"%char (item_Node i1) = false →
     containsByte "-"%char (item_Name i1) = false →
     containsByte "-"%char (item_Node i2) = false →
     containsByte "-"%char (item_Name i2) = false →
     svcName i1 = svcName i2 →
     (item_Node i1, item_Name i1, item_ID i1) = (item_Node i2, item_Name i2, item_ID i2))
  ∧ (item_Node i1 = item_Node i2 →
     item_Name i1 = item_Name i2 →
     item_ID i1 ≠ item_ID i2 →
     svcName i1 ≠ svcName i2)
  ∧ (svcName i1 ≠ svcName i2 →
     i1 ∈ items → i2 ∈ items →
     (buildConfiguration_item p i1).1 = Some c1 →
     (buildConfiguration_item p i2).1 = Some c2 →
     is_Some ((buildConfiguration_loop p items).1 !! svcName i1)
     ∧ is_Some ((buildConfiguration_loop p items).1 !! svcName i2)
     ∧ (buildConfiguration_loop p [i1; i2]).1
       = <[svcName i2 := c2]> (<[svcName i1 := c1]> ∅)).
Proof.
  unfold svcName. split_and!.
  - by intros [= -> -> ->].
  - intros H1 H2 H3 H4 Heq.
    apply (append_sep_inj "-"%char) in Heq as [-> Heq]; [|done..].
    apply (append_sep_inj "-"%char) in Heq as [-> ->]; done.
  - intros -> -> Hid Heq. apply Hid.
    by do 2 (apply append_inv_head in Heq; simpl in Heq; simplify_eq/=).
  - intros _ Hin1 Hin2 Hc1 Hc2. rewrite !loop_pair. simpl. split_and!.
    + by eapply fold_lookup_member.
    + by eapply fold_lookup_member.
    + by rewrite Hc1, Hc2.
Qed.

(** C7. An accepted item whose decoded fragment has transport-layer routers
    or services, whose TCP completion succeeds, and whose application-layer
    section has no router, no middleware and no service, is stored with the
    decoded application-layer section as it is; the HTTP completer and the
    HTTP router synthesis are not run, and nothing is logged. *)
Theorem tcp_only_fragment p item confFromLabel tcp st :
  (keepContainer p (svcName item) item).1 = true →
  label_DecodeConfiguration (item_Labels item) = Ok confFromLabel →
  (0 < size (TCP_Routers (TCP confFromLabel))
   ∨ 0 < size (TCP_Services (TCP confFromLabel)))%nat →
  buildTCPServiceConfiguration item (TCP confFromLabel) = Ok tcp →
  size (HTTP_Routers (HTTP confFromLabel)) = 0%nat →
  size (HTTP_Middlewares (HTTP confFromLabel)) = 0%nat →
  size (HTTP_Services (HTTP confFromLabel)) = 0%nat →
  buildConfiguration_item p item
  = (Some (mkConfiguration (HTTP confFromLabel)
             (provider_BuildTCPRouterConfiguration tcp)), [])
  ∧ (buildConfiguration_step p st item).1 !! svcName item
    = Some (mkConfiguration (HTTP confFromLabel)
              (provider_BuildTCPRouterConfiguration tcp))
  ∧ (buildConfiguration_step p st item).2 = st.2.
Proof.
  intros Hk Hd Ht Hc Hr Hm Hs.
  assert (buildConfiguration_item p item
          = (Some (mkConfiguration (HTTP confFromLabel)
                     (provider_BuildTCPRouterConfiguration tcp)), [])) as E.
  { rewrite buildConfiguration_item_kept by done. rewrite Hd.
    rewrite bool_decide_eq_true_2 by done. rewrite Hc.
    by rewrite bool_decide_eq_true_2. }
  split_and!; [done|..].
  - rewrite buildConfiguration_step_fst, E. simpl. apply lookup_insert_eq.
  - rewrite buildConfiguration_step_snd, E. simpl. apply app_nil_r.
Qed.

(** C10. When two items of a pass store a fragment under the same key, the
    map holds the later fragment once the later item is processed and keeps
    it unless a still later item stores under that key; map and log of the
    whole pass are those of the pass without the earlier item, which logs
    nothing. *)
Theorem later_item_replaces p l1 i1 l2 i2 l3 c1 c2 :
  svcName i1 = svcName i2 →
  (buildConfiguration_item p i1).1 = Some c1 →
  (buildConfiguration_item p i2).1 = Some c2 →
  (buildConfiguration_loop p (l1 ++ i1 :: l2 ++ [i2])).1 !! svcName i2 = Some c2
  ∧ buildConfiguration_loop p (l1 ++ i1 :: l2 ++ i2 :: l3)
    = buildConfiguration_loop p (l1 ++ l2 ++ i2 :: l3)
  ∧ (buildConfiguration_item p i1).2 = []
  ∧ ((∀ i, i ∈ l3 → svcName i = svcName i2 → (buildConfiguration_item p i).1 = None) →
     (buildConfiguration_loop p (l1 ++ i1 :: l2 ++ i2 :: l3)).1 !! svcName i2 = Some c2).
Proof.
  intros Hk H1 H2.
  pose proof (buildConfiguration_item_silent p i1 c1 H1) as Hs1.
  split_and!.
  - rewrite loop_pair. simpl. rewrite foldl_app. simpl. rewrite foldl_app. simpl.
    rewrite H2. simpl. apply lookup_insert_eq.
  - rewrite !loop_pair. f_equal.
    + rewrite !foldl_app. simpl. rewrite !foldl_app. simpl.
      rewrite H1, H2, Hk. simpl. by rewrite fold_insert_absorb.
    + repeat (rewrite !fmap_app, !join_app; simpl). by rewrite Hs1.
  - done.
  - intros Hl3. rewrite loop_pair. simpl.
    rewrite foldl_app. simpl. rewrite foldl_app. simpl.
    rewrite fold_lookup_skip by done. rewrite H2. simpl. apply lookup_insert_eq.
Qed.

End AssemblerFacts.

(** * The properties on the concrete provider *)

Section OnDemo.

Import Demo.

Existing Instance defaults.
Existing Instance collaborators.

(** The pass of the specification: one enabled, passing item without
    router or service labels yields one service under the derived key,
    with the endpoint [http://10.0.0.5:8080]. *)
Example run_web : run [web] = ({[ "n1-svc-i1" := httpFragment "svc" "http://10.0.0.5:8080" ]}, []).
Proof. vm_compute. reflexivity. Qed.

(** *** Resolvers *)

Lemma missing_address_after_port_witness :
  (addServerTCP noAddress (Some tcpPort8080)).2 = Some errAddressMissing
  ∧ (addServer noAddress (Some lbPort8080)).2 = Some errAddressMissing.
Proof.
  destruct (missing_address_after_port noAddress tcpPort8080 lbPort8080) as [Ht Hh].
  - reflexivity.
  - left. vm_compute. discriminate.
  - split; [apply Ht; vm_compute; discriminate|exact Hh].
Defined.

(** Without address and without port, it is the port that both resolvers
    report missing. *)
Lemma missing_address_counterexample :
  item_Address noAddressNoPort = ""
  ∧ (addServerTCP noAddressNoPort (Some TCPServersLoadBalancer_zero)).2
    = Some errPortMissing
  ∧ (addServer noAddressNoPort (Some ServersLoadBalancer_zero)).2 = Some errPortMissing
  ∧ Some errPortMissing ≠ Some errAddressMissing.
Proof. split_and!; [reflexivity..|discriminate]. Qed.

(** C2 at an item without port and a slot that carries port 8080:
    [addServer] builds the endpoint from the slot's port, [addServerTCP]
    reports the port missing and leaves the load balancer as it was. *)
Theorem addServerTCP_no_fallback :
  addServerTCP noPort (Some tcpPort8080) = (Some tcpPort8080, Some errPortMissing)
  ∧ addServer noPort (Some lbPort8080)
    = (Some (mkServersLoadBalancer [mkServer "http://10.0.0.5:8080" "" "8080"]), None).
Proof. split; reflexivity. Qed.

(** An item's own port wins over the slot's in both resolvers. *)
Example item_port_wins :
  addServerTCP web (Some tcpTwoSlots)
  = (Some (mkTCPServersLoadBalancer
             [mkTCPServer "10.0.0.5:8080" ""; mkTCPServer "10.9.9.9:81" ""]), None)
  ∧ addServer web (Some lbTwoSlots)
    = (Some (mkServersLoadBalancer
               [mkServer "http://10.0.0.5:8080" "" ""; mkServer "http://10.9.9.9:81" "" ""]),
       None).
Proof. split; reflexivity. Qed.

Lemma port_cleared_on_success_witness :
  (∃ s, [mkTCPServer "10.0.0.5:8080" ""] !! 0%nat = Some s ∧ TCPServer_Port s = "")
  ∧ (∃ s, [mkServer "http://10.0.0.5:8080" "" ""] !! 0%nat = Some s ∧ Server_Port s = "").
Proof.
  apply (port_cleared_on_success web tcpPort8080
           (mkTCPServersLoadBalancer [mkTCPServer "10.0.0.5:8080" ""])
           lbPort8080 (mkServersLoadBalancer [mkServer "http://10.0.0.5:8080" "" ""])).
  - reflexivity.
  - vm_compute. discriminate.
  - reflexivity.
Defined.

(** On the fallback path [addServer] succeeds and the slot still holds its
    port. *)
Lemma port_cleared_counterexample :
  ∃ lb', addServer noPort (Some lbPort8080) = (Some lb', None)
         ∧ Server_Port <$> Servers lb' !! 0%nat = Some "8080"
         ∧ "8080" ≠ "".
Proof. eexists. split_and!; [reflexivity..|discriminate]. Qed.

Lemma missing_port_witness :
  (addServerTCP noPort (Some TCPServersLoadBalancer_zero)).2 = Some errPortMissing
  ∧ (addServer noPort (Some (mkServersLoadBalancer [Server_zero]))).2
    = Some errPortMissing.
Proof.
  apply (missing_port noPort TCPServersLoadBalancer_zero
           (mkServersLoadBalancer [Server_zero])).
  - reflexivity.
  - intros s. vm_compute. discriminate.
  - intros s. simpl. intros [= <-]. reflexivity.
Defined.

Lemma other_slots_untouched_witness :
  (∃ tlb', (addServerTCP web (Some tcpTwoSlots)).1 = Some tlb'
           ∧ length (TCPServers tlb') = length (TCPServers tcpTwoSlots)
           ∧ ∀ i, (0 < i)%nat → TCPServers tlb' !! i = TCPServers tcpTwoSlots !! i)
  ∧ (∃ lb', (addServer web (Some lbTwoSlots)).1 = Some lb'
            ∧ length (Servers lb') = length (Servers lbTwoSlots)
            ∧ ∀ i, (0 < i)%nat → Servers lb' !! i = Servers lbTwoSlots !! i).
Proof. apply (other_slots_untouched web tcpTwoSlots lbTwoSlots); simpl; lia. Defined.

(** *** Assembler *)

Lemma failing_item_contributes_nothing_witness :
  (run [web; invalid; web2]).1 = (run [web; web2]).1.
Proof.
  destruct (failing_item_contributes_nothing prov [web] invalid [web2]) as (_ & Hl & _).
  - apply (decodeFails invalid (errors_New "invalid label")). vm_compute. reflexivity.
  - exact Hl.
Defined.

(** The three ways to fail, and what the pass logs for them. *)
Example run_failing :
  run [invalid; noPort; noAddress; web]
  = ({[ "n1-svc-i1" := httpFragment "svc" "http://10.0.0.5:8080" ]},
     [LogLine "n1-svc-i3" (Error_ "invalid label");
      LogLine "n1-svc-i8" (Error_ "port is missing");
      LogLine "n1-svc-i6" (Error_ "address is missing")]).
Proof. vm_compute. reflexivity. Qed.

Lemma keepContainer_exactly_witness :
  (run [web; critical]).1 !! svcName critical = None.
Proof.
  apply (proj2 (keepContainer_exactly prov "" web [web; critical] (svcName critical))).
  intros i Hin Hk.
  apply elem_of_cons in Hin as [->|Hin]; [vm_compute in Hk; discriminate|].
  apply elem_of_cons in Hin as [->|Hin]; [|by apply elem_of_nil in Hin].
  split; vm_compute; discriminate.
Defined.

Lemma svcName_separates_witness :
  svcName web ≠ svcName web2
  ∧ is_Some ((run [web; web2]).1 !! svcName web)
  ∧ is_Some ((run [web; web2]).1 !! svcName web2).
Proof.
  destruct (svcName_separates prov web web2 [web; web2]
              (httpFragment "svc" "http://10.0.0.5:8080")
              (httpFragment "svc" "http://10.0.0.6:8080")) as (_ & _ & Hne & Hin).
  assert (svcName web ≠ svcName web2) as Hk.
  { apply Hne; [reflexivity..|vm_compute; discriminate]. }
  destruct Hin as (H1 & H2 & _).
  - exact Hk.
  - apply elem_of_cons. left. reflexivity.
  - apply elem_of_cons. right. apply elem_of_cons. left. reflexivity.
  - vm_compute. reflexivity.
  - vm_compute. reflexivity.
  - split_and!; [exact Hk|exact H1|exact H2].
Defined.

(** Two items with the same service name and different instance ids whose
    triples differ and whose keys coincide: the pass ends with one entry. *)
Lemma svcName_collision :
  (item_Node dashed1, item_Name dashed1, item_ID dashed1)
    ≠ (item_Node dashed2, item_Name dashed2, item_ID dashed2)
  ∧ item_Name dashed1 = item_Name dashed2
  ∧ item_ID dashed1 ≠ item_ID dashed2
  ∧ svcName dashed1 = svcName dashed2
  ∧ (buildConfiguration_item prov dashed1).1 = Some (httpFragment "s" "http://10.0.1.1:80")
  ∧ (buildConfiguration_item prov dashed2).1 = Some (httpFragment "s" "http://10.0.1.2:80")
  ∧ run [dashed1; dashed2] = ({[ "a-s-s-b" := httpFragment "s" "http://10.0.1.2:80" ]}, []).
Proof.
  split_and!; try (vm_compute; reflexivity); vm_compute; discriminate.
Qed.

Lemma tcp_only_fragment_witness :
  buildConfiguration_item prov db
  = (Some (mkConfiguration (HTTP dbDecoded) (tcpRouters dbCompleted)), []).
Proof.
  destruct (tcp_only_fragment prov db dbDecoded dbCompleted (∅, [])) as (Hi & _).
  - reflexivity.
  - vm_compute. reflexivity.
  - right. vm_compute. lia.
  - vm_compute. reflexivity.
  - reflexivity.
  - reflexivity.
  - reflexivity.
  - exact Hi.
Defined.

Lemma later_item_replaces_witness :
  (run [web; web2; webAgain]).1 !! svcName webAgain
  = Some (httpFragment "svc" "http://10.0.0.9:9090")
  ∧ run [web; web2; webAgain] = run [web2; webAgain].
Proof.
  destruct (later_item_replaces prov [] web [web2] webAgain []
              (httpFragment "svc" "http://10.0.0.5:8080")
              (httpFragment "svc" "http://10.0.0.9:9090")) as (Hl & Hr & _).
  - reflexivity.
  - vm_compute. reflexivity.
  - vm_compute. reflexivity.
  - split; [exact Hl|exact Hr].
Defined.

End OnDemo.

(** * Further properties of the resolvers *)

Section ResolverOutcomes.

Context `{!Defaults}.

Ltac resolve_cases :=
  unfold addServerTCP, addServer, TCPServers0, Servers0, chosenPort; simpl;
  repeat (case_decide; simpl in * ); simplify_eq/=; try done.

(** X1. [addServerTCP] returns no error exactly when the load balancer is
    not nil and the item has both a port and an address. *)
Theorem addServerTCP_success_iff item loadBalancer :
  (addServerTCP item loadBalancer).2 = None
  ↔ is_Some loadBalancer ∧ item_Port item ≠ "" ∧ item_Address item ≠ "".
Proof.
  destruct loadBalancer as [lb|].
  - destruct (decide (item_Port item = "")) as [Hp|Hp].
    + rewrite addServerTCP_no_item_port by done. split; [done|]. by intros (_ & ? & _).
    + rewrite addServerTCP_item_port by done. case_decide.
      * split; [done|]. by intros (_ & _ & ?).
      * split; [|done]. intros _. split_and!; [by eexists|done..].
  - split; [done|]. by intros ([? [=]] & _).
Qed.

(** X2. [addServer] returns no error exactly when the load balancer is not
    nil, the item has an address, and a port is available: the item's own,
    or the one slot 0 carries on entry. *)
Theorem addServer_success_iff item loadBalancer :
  (addServer item loadBalancer).2 = None
  ↔ ∃ lb, loadBalancer = Some lb
          ∧ (item_Port item ≠ ""
             ∨ ∃ s, Servers lb !! 0%nat = Some s ∧ Server_Port s ≠ "")
          ∧ item_Address item ≠ "".
Proof.
  destruct loadBalancer as [lb|]; [|split; [done|by intros (? & [=] & _)]].
  rewrite addServer_outcome. unfold chosenPort.
  destruct (decide (item_Port item ≠ "")) as [Hp|Hp].
  - rewrite decide_False by done. case_decide.
    + split; [done|]. by intros (? & _ & _ & ?).
    + split; [|done]. intros _. exists lb. split_and!; [done|by left|done].
  - destruct (Servers lb !! 0%nat) as [s|] eqn:E; simpl.
    + destruct (decide (Server_Port s = "")) as [Hs|Hs].
      * split; [done|]. intros (? & [= <-] & [?|(s' & Hs' & ?)] & _); [done|].
        rewrite E in Hs'. by simplify_eq.
      * case_decide.
        -- split; [done|]. by intros (? & _ & _ & ?).
        -- split; [|done]. intros _. exists lb. split_and!; [done|right; eauto|done].
    + split; [done|].
      intros (? & [= <-] & [?|(s' & Hs' & ?)] & _); [done|]. by rewrite E in Hs'.
Qed.

(** X3. For an item with port and address, [addServerTCP] succeeds on every
    load balancer that is not nil; slot 0 becomes the endpoint
    [host:port] with an empty [Port], whatever it held, the later slots
    stay, and a load balancer without slots gets exactly one. *)
Theorem addServerTCP_success_result item lb :
  item_Port item ≠ "" →
  item_Address item ≠ "" →
  addServerTCP item (Some lb)
  = (Some (mkTCPServersLoadBalancer
             (mkTCPServer (net_JoinHostPort (item_Address item) (item_Port item)) ""
              :: tail (TCPServers lb))),
     None).
Proof. intros Hp Ha. destruct lb as [[|s l]]; resolve_cases. Qed.

(** X4. Whenever a port is available and the item has an address,
    [addServer] succeeds: the URL of slot 0 is the scheme the slot held (the
    default server's one when there was no slot), [://], and [host:port]
    with the item's port if it has one and the slot's otherwise; the
    scheme is emptied, the slot's port is emptied only when the item's port
    was used, and the later slots stay. *)
Theorem addServer_success_result item lb :
  chosenPort item lb ≠ "" →
  item_Address item ≠ "" →
  let s0 := default (Server_SetDefaults Server_zero) (head (Servers lb)) in
  addServer item (Some lb)
  = (Some (mkServersLoadBalancer
             (mkServer
                (Server_Scheme s0 +:+ "://"
                 +:+ net_JoinHostPort (item_Address item) (chosenPort item lb))
                ""
                (if decide (item_Port item ≠ "") then "" else Server_Port s0)
              :: tail (Servers lb))),
     None).
Proof. destruct lb as [[|s l]]; resolve_cases. Qed.

(** X5. Running [addServerTCP] again on the load balancer it left behind
    changes nothing and gives the same verdict, in every case. *)
Theorem addServerTCP_idempotent item loadBalancer :
  addServerTCP item (addServerTCP item loadBalancer).1 = addServerTCP item loadBalancer.
Proof. destruct loadBalancer as [[[|s l]]|]; resolve_cases. Qed.

(** X6. [addServer] is not idempotent. After a successful run, a second run
    on the same load balancer succeeds again, but since the first run
    emptied the scheme, the URL it writes has none: it is [://host:port]. *)
Theorem addServer_rerun_drops_scheme item lb lb' :
  addServer item (Some lb) = (Some lb', None) →
  addServer item (Some lb')
  = (Some (mkServersLoadBalancer
             (mkServer ("://" +:+ net_JoinHostPort (item_Address item) (chosenPort item lb))
                "" (default "" (Server_Port <$> head (Servers lb')))
              :: tail (Servers lb'))),
     None).
Proof.
  destruct lb as [[|s l]]; resolve_cases; intros; simplify_eq/=; resolve_cases.
Qed.

(** X7. A resolver that fails on a load balancer with slots writes no
    endpoint: the addresses (for [addServer], the URLs and the schemes) of
    all slots are as before. *)
Theorem failed_resolver_keeps_endpoints item tlb lb :
  TCPServers tlb ≠ [] →
  Servers lb ≠ [] →
  ((addServerTCP item (Some tlb)).2 ≠ None →
   ∃ tlb', (addServerTCP item (Some tlb)).1 = Some tlb'
           ∧ TCPServer_Address <$> TCPServers tlb' = TCPServer_Address <$> TCPServers tlb)
  ∧ ((addServer item (Some lb)).2 ≠ None →
     ∃ lb', (addServer item (Some lb)).1 = Some lb'
            ∧ Server_URL <$> Servers lb' = Server_URL <$> Servers lb
            ∧ Server_Scheme <$> Servers lb' = Server_Scheme <$> Servers lb).
Proof.
  intros Ht Hh. split.
  - destruct tlb as [[|s l]]; [done|]. resolve_cases; intros _; by eexists.
  - destruct lb as [[|s l]]; [done|]. resolve_cases; intros _; by eexists.
Qed.

End ResolverOutcomes.

(** * Further properties of the completers and of the assembler *)

Section Outcomes.

Context {Router Middleware TCPRouter Template : Type}.
Context `{!Defaults} `{!@Collaborators Router Middleware TCPRouter Template}.

Implicit Types (p : @Provider Template) (item : itemData).
Implicit Types (http : @HTTPConfiguration Router Middleware).
Implicit Types (tcp : @TCPConfiguration TCPRouter).
Implicit Types (m : gmap string (@Configuration Router Middleware TCPRouter)).

(** The services a completer walks: the declared ones, or the synthesised
    one named after the item. *)
Local Abbreviation httpServices item http :=
  (if decide (size (HTTP_Services http) = 0%nat)
   then {[ item_Name item :=
             mkService (Some (ServersLoadBalancer_SetDefaults ServersLoadBalancer_zero)) ]}
   else HTTP_Services http).

Local Abbreviation tcpServices item tcp :=
  (if decide (size (TCP_Services tcp) = 0%nat)
   then {[ item_Name item :=
             mkTCPService
               (Some (TCPServersLoadBalancer_SetDefaults TCPServersLoadBalancer_zero)) ]}
   else TCP_Services tcp).

Local Abbreviation httpResolves item :=
  (λ (_ : string) s, (addServer item (LoadBalancer s)).2 = None).

Local Abbreviation tcpResolves item :=
  (λ (_ : string) s, (addServerTCP item (TCPLoadBalancer s)).2 = None).

Lemma httpServices_nonempty item http : httpServices item http ≠ ∅.
Proof.
  case_decide as Hs; [apply insert_non_empty|].
  intros He. apply Hs. by rewrite He, map_size_empty.
Qed.

Lemma tcpServices_nonempty item tcp : tcpServices item tcp ≠ ∅.
Proof.
  case_decide as Hs; [apply insert_non_empty|].
  intros He. apply Hs. by rewrite He, map_size_empty.
Qed.

Lemma buildServiceConfiguration_Err item http :
  ¬ map_Forall (httpResolves item) (httpServices item http) →
  ∃ name s err, httpServices item http !! name = Some s
                ∧ (addServer item (LoadBalancer s)).2 = Some err
                ∧ buildServiceConfiguration item http = Err err.
Proof.
  intros HF. unfold buildServiceConfiguration.
  destruct (addServers_Err item (map_to_list (httpServices item http)))
    as ([name s] & err & Hin & He & ->).
  - intros HF'. apply HF. intros name s Hs.
    rewrite Forall_forall in HF'. by apply (HF' (name, s)), elem_of_map_to_list.
  - exists name, s, err. split; [by apply elem_of_map_to_list|done].
Qed.

Lemma buildTCPServiceConfiguration_Err item tcp :
  ¬ map_Forall (tcpResolves item) (tcpServices item tcp) →
  ∃ name s err, tcpServices item tcp !! name = Some s
                ∧ (addServerTCP item (TCPLoadBalancer s)).2 = Some err
                ∧ buildTCPServiceConfiguration item tcp = Err err.
Proof.
  intros HF. unfold buildTCPServiceConfiguration.
  destruct (addServersTCP_Err item (map_to_list (tcpServices item tcp)))
    as ([name s] & err & Hin & He & ->).
  - intros HF'. apply HF. intros name s Hs.
    rewrite Forall_forall in HF'. by apply (HF' (name, s)), elem_of_map_to_list.
  - exists name, s, err. split; [by apply elem_of_map_to_list|done].
Qed.

(** X8. [buildServiceConfiguration] either succeeds, and then every walked
    service resolved, routers and middlewares are as they were, and the
    services are the walked ones, under the same names, each with its load
    balancer resolved; or it returns the error [addServer] gives for one of
    the walked services. *)
Theorem buildServiceConfiguration_outcome item http :
  match buildServiceConfiguration item http with
  | Ok http' =>
    map_Forall (λ _ s, (addServer item (LoadBalancer s)).2 = None) (httpServices item http)
    ∧ http' = mkHTTPConfiguration (HTTP_Routers http) (HTTP_Middlewares http)
                ((λ s, mkService (addServer item (LoadBalancer s)).1)
                   <$> httpServices item http)
  | Err err =>
    ∃ name s, httpServices item http !! name = Some s
              ∧ (addServer item (LoadBalancer s)).2 = Some err
  end.
Proof.
  destruct (decide (map_Forall (httpResolves item) (httpServices item http))) as [HF|HF].
  - by rewrite buildServiceConfiguration_Ok.
  - destruct (buildServiceConfiguration_Err item http HF) as (name & s & err & ? & ? & ->).
    eauto.
Qed.

(** X9. The same for [buildTCPServiceConfiguration] and [addServerTCP]. *)
Theorem buildTCPServiceConfiguration_outcome item tcp :
  match buildTCPServiceConfiguration item tcp with
  | Ok tcp' =>
    map_Forall (λ _ s, (addServerTCP item (TCPLoadBalancer s)).2 = None)
      (tcpServices item tcp)
    ∧ tcp' = mkTCPConfiguration (TCP_Routers tcp)
               ((λ s, mkTCPService (addServerTCP item (TCPLoadBalancer s)).1)
                  <$> tcpServices item tcp)
  | Err err =>
    ∃ name s, tcpServices item tcp !! name = Some s
              ∧ (addServerTCP item (TCPLoadBalancer s)).2 = Some err
  end.
Proof.
  destruct (decide (map_Forall (tcpResolves item) (tcpServices item tcp))) as [HF|HF].
  - by rewrite buildTCPServiceConfiguration_Ok.
  - destruct (buildTCPServiceConfiguration_Err item tcp HF)
      as (name & s & err & ? & ? & ->).
    eauto.
Qed.

(** What the resolvers do for an item that has a port and an address. *)
Lemma addServerTCP_located item lb :
  item_Port item ≠ "" → item_Address item ≠ "" →
  addServerTCP item (Some lb)
  = (Some (mkTCPServersLoadBalancer
             (mkTCPServer (net_JoinHostPort (item_Address item) (item_Port item)) ""
              :: tail (TCPServers lb))), None).
Proof.
  intros Hp Ha. unfold addServerTCP, TCPServers0.
  destruct lb as [[|s l]]; simpl; repeat (case_decide; simpl in * ); simplify_eq/=; done.
Qed.

Lemma addServer_located item lb :
  item_Port item ≠ "" → item_Address item ≠ "" →
  addServer item (Some lb)
  = (Some (mkServersLoadBalancer
             (mkServer
                (Server_Scheme (default (Server_SetDefaults Server_zero) (head (Servers lb)))
                 +:+ "://" +:+ net_JoinHostPort (item_Address item) (item_Port item))
                "" ""
              :: tail (Servers lb))), None).
Proof.
  intros Hp Ha. unfold addServer, Servers0.
  destruct lb as [[|s l]]; simpl; repeat (case_decide; simpl in * ); simplify_eq/=; done.
Qed.

(** X10. For an item with port and address and sections that declare no
    service, both completers succeed and leave exactly one service, named
    after the item, whose one resolved slot joins the item's address and
    port (after the default scheme, for HTTP), in front of whatever slots
    the default load balancer has beyond its first. *)
Theorem default_service_synthesised item http tcp :
  item_Port item ≠ "" →
  item_Address item ≠ "" →
  size (HTTP_Services http) = 0%nat →
  size (TCP_Services tcp) = 0%nat →
  let lb := ServersLoadBalancer_SetDefaults ServersLoadBalancer_zero in
  let tlb := TCPServersLoadBalancer_SetDefaults TCPServersLoadBalancer_zero in
  let hostport := net_JoinHostPort (item_Address item) (item_Port item) in
  buildServiceConfiguration item http
  = Ok (mkHTTPConfiguration (HTTP_Routers http) (HTTP_Middlewares http)
          {[ item_Name item :=
               mkService
                 (Some (mkServersLoadBalancer
                          (mkServer
                             (Server_Scheme
                                (default (Server_SetDefaults Server_zero) (head (Servers lb)))
                              +:+ "://" +:+ hostport) "" ""
                           :: tail (Servers lb)))) ]})
  ∧ buildTCPServiceConfiguration item tcp
    = Ok (mkTCPConfiguration (TCP_Routers tcp)
            {[ item_Name item :=
                 mkTCPService
                   (Some (mkTCPServersLoadBalancer
                            (mkTCPServer hostport "" :: tail (TCPServers tlb)))) ]}).
Proof.
  intros Hp Ha Hh Ht lb tlb hostport. split.
  - rewrite buildServiceConfiguration_Ok; rewrite decide_True by done.
    + rewrite map_fmap_singleton. cbn [LoadBalancer]. by rewrite addServer_located.
    + apply map_Forall_singleton. cbn [LoadBalancer]. by rewrite addServer_located.
  - rewrite buildTCPServiceConfiguration_Ok; rewrite decide_True by done.
    + rewrite map_fmap_singleton. cbn [TCPLoadBalancer]. by rewrite addServerTCP_located.
    + apply map_Forall_singleton. cbn [TCPLoadBalancer]. by rewrite addServerTCP_located.
Qed.

(** X11. For an item with port and address the completers can fail in one
    way only: with the load-balancer-not-defined error, on a declared
    service whose load balancer is nil. *)
Theorem located_item_fails_on_nil_only item http tcp err :
  item_Port item ≠ "" →
  item_Address item ≠ "" →
  (buildServiceConfiguration item http = Err err →
   err = errLoadBalancerNotDefined
   ∧ ∃ name, HTTP_Services http !! name = Some (mkService None))
  ∧ (buildTCPServiceConfiguration item tcp = Err err →
     err = errLoadBalancerNotDefined
     ∧ ∃ name, TCP_Services tcp !! name = Some (mkTCPService None)).
Proof.
  intros Hp Ha. split; intros He.
  - destruct (decide (map_Forall (httpResolves item) (httpServices item http))) as [HF|HF].
    { by rewrite buildServiceConfiguration_Ok in He. }
    destruct (buildServiceConfiguration_Err item http HF)
      as (name & [[lb|]] & err' & Hl & Hs & He'); cbn [LoadBalancer] in *.
    { by rewrite addServer_located in Hs. }
    rewrite He in He'. simplify_eq/=. split; [done|]. exists name.
    case_decide; [|done]. by apply lookup_singleton_Some in Hl as [_ [=]].
  - destruct (decide (map_Forall (tcpResolves item) (tcpServices item tcp))) as [HF|HF].
    { by rewrite buildTCPServiceConfiguration_Ok in He. }
    destruct (buildTCPServiceConfiguration_Err item tcp HF)
      as (name & [[lb|]] & err' & Hl & Hs & He'); cbn [TCPLoadBalancer] in *.
    { by rewrite addServerTCP_located in Hs. }
    rewrite He in He'. simplify_eq/=. split; [done|]. exists name.
    case_decide; [|done]. by apply lookup_singleton_Some in Hl as [_ [=]].
Qed.


(** ** One iteration *)

(** X13. An accepted item whose decoded fragment has neither
    transport-layer routers nor services goes through the HTTP completer
    and router synthesis only: on success the fragment is stored with its
    transport-layer section exactly as decoded, and nothing is logged. *)
Theorem http_only_fragment p item confFromLabel http :
  (keepContainer p (svcName item) item).1 = true →
  label_DecodeConfiguration (item_Labels item) = Ok confFromLabel →
  size (TCP_Routers (TCP confFromLabel)) = 0%nat →
  size (TCP_Services (TCP confFromLabel)) = 0%nat →
  buildServiceConfiguration item (HTTP confFromLabel) = Ok http →
  buildConfiguration_item p item
  = (Some (mkConfiguration
             (provider_BuildRouterConfiguration http (item_Name item) (defaultRuleTpl p)
                (mkModel (item_Name item) (item_Labels item)))
             (TCP confFromLabel)), []).
Proof.
  intros Hk Hd Hr Hs Hh. rewrite buildConfiguration_item_kept by done. rewrite Hd.
  rewrite bool_decide_eq_false_2 by (rewrite Hr, Hs; lia).
  unfold buildConfiguration_http. by rewrite Hh.
Qed.

(** X14. An accepted item whose decoded fragment has content in both
    sections is stored, when both completers succeed, with both sections
    completed and both router syntheses applied, and nothing is logged. *)
Theorem mixed_fragment p item confFromLabel tcp http :
  (keepContainer p (svcName item) item).1 = true →
  label_DecodeConfiguration (item_Labels item) = Ok confFromLabel →
  (0 < size (TCP_Routers (TCP confFromLabel))
   ∨ 0 < size (TCP_Services (TCP confFromLabel)))%nat →
  (0 < size (HTTP_Routers (HTTP confFromLabel))
   ∨ 0 < size (HTTP_Middlewares (HTTP confFromLabel))
   ∨ 0 < size (HTTP_Services (HTTP confFromLabel)))%nat →
  buildTCPServiceConfiguration item (TCP confFromLabel) = Ok tcp →
  buildServiceConfiguration item (HTTP confFromLabel) = Ok http →
  buildConfiguration_item p item
  = (Some (mkConfiguration
             (provider_BuildRouterConfiguration http (item_Name item) (defaultRuleTpl p)
                (mkModel (item_Name item) (item_Labels item)))
             (provider_BuildTCPRouterConfiguration tcp)), []).
Proof.
  intros Hk Hd Ht Hne Hc Hh. rewrite buildConfiguration_item_kept by done. rewrite Hd.
  rewrite bool_decide_eq_true_2 by done. rewrite Hc.
  rewrite bool_decide_eq_false_2 by lia.
  unfold buildConfiguration_http. simpl. by rewrite Hh.
Qed.

(** Without address no resolver succeeds. *)
Lemma addServerTCP_no_address item loadBalancer :
  item_Address item = "" → (addServerTCP item loadBalancer).2 ≠ None.
Proof.
  intros Ha. destruct loadBalancer as [lb|]; [|done].
  destruct (decide (item_Port item = "")) as [Hp|Hp].
  - by rewrite addServerTCP_no_item_port.
  - rewrite addServerTCP_item_port by done. by rewrite decide_True.
Qed.

Lemma addServer_no_address item loadBalancer :
  item_Address item = "" → (addServer item loadBalancer).2 ≠ None.
Proof.
  intros Ha. destruct loadBalancer as [lb|]; [|done].
  rewrite addServer_outcome. case_decide; [done|]. by rewrite decide_True.
Qed.

(** X15. An item without address is never stored, whatever its labels
    decode to: every path of the iteration ends in [continue]. *)
Theorem item_without_address_never_recorded p item :
  item_Address item = "" →
  (buildConfiguration_item p item).1 = None.
Proof.
  intros Ha. destruct (keepContainer p (svcName item) item).1 eqn:Hk;
    [|by apply buildConfiguration_item_rejected].
  rewrite buildConfiguration_item_kept by done.
  assert (∀ http, ∃ err, buildServiceConfiguration item http = Err err) as Hhttp.
  { intros http. destruct (buildServiceConfiguration_Err item http) as (? & ? & err & _ & _ & ?);
      [|by eauto].
    intros HF. destruct (map_choose _ (httpServices_nonempty item http)) as (n & s & Hs).
    by apply (addServer_no_address item (LoadBalancer s) Ha), (HF n). }
  assert (∀ tcp, ∃ err, buildTCPServiceConfiguration item tcp = Err err) as Htcp.
  { intros tcp.
    destruct (buildTCPServiceConfiguration_Err item tcp) as (? & ? & err & _ & _ & ?);
      [|by eauto].
    intros HF. destruct (map_choose _ (tcpServices_nonempty item tcp)) as (n & s & Hs).
    by apply (addServerTCP_no_address item (TCPLoadBalancer s) Ha), (HF n). }
  destruct (label_DecodeConfiguration (item_Labels item)) as [conf|]; [|done].
  unfold buildConfiguration_http. case_bool_decide.
  - by destruct (Htcp (TCP conf)) as [err ->].
  - by destruct (Hhttp (HTTP conf)) as [err ->].
Qed.

(** X16. An accepted item with port and address whose labels decode, to a
    fragment in which every declared service has a load balancer, is always
    stored. *)
Theorem located_item_always_recorded p item confFromLabel :
  (keepContainer p (svcName item) item).1 = true →
  label_DecodeConfiguration (item_Labels item) = Ok confFromLabel →
  item_Port item ≠ "" →
  item_Address item ≠ "" →
  map_Forall (λ _ s, is_Some (TCPLoadBalancer s)) (TCP_Services (TCP confFromLabel)) →
  map_Forall (λ _ s, is_Some (LoadBalancer s)) (HTTP_Services (HTTP confFromLabel)) →
  is_Some (buildConfiguration_item p item).1.
Proof.
  intros Hk Hd Hp Ha Ht Hh. rewrite buildConfiguration_item_kept by done. rewrite Hd.
  assert (∃ http, buildServiceConfiguration item (HTTP confFromLabel) = Ok http) as [http Eh].
  { eexists. apply buildServiceConfiguration_Ok. intros n s Hs.
    case_decide.
    - apply lookup_singleton_Some in Hs as [_ <-]. cbn [LoadBalancer].
      by rewrite addServer_located.
    - destruct (Hh n s Hs) as [lb Hlb]. rewrite Hlb. by rewrite addServer_located. }
  assert (∃ tcp, buildTCPServiceConfiguration item (TCP confFromLabel) = Ok tcp) as [tcp Et].
  { eexists. apply buildTCPServiceConfiguration_Ok. intros n s Hs.
    case_decide.
    - apply lookup_singleton_Some in Hs as [_ <-]. cbn [TCPLoadBalancer].
      by rewrite addServerTCP_located.
    - destruct (Ht n s Hs) as [lb Hlb]. rewrite Hlb. by rewrite addServerTCP_located. }
  unfold buildConfiguration_http. simpl. rewrite Et, Eh.
  repeat case_bool_decide; by eexists.
Qed.

(** ** The whole pass *)




(** Where an entry of the folded map comes from. *)
Lemma fold_lookup_origin p items m k c :
  foldl (λ m i, store (svcName i) (buildConfiguration_item p i).1 m) m items !! k = Some c →
  m !! k = Some c
  ∨ ∃ i, i ∈ items ∧ svcName i = k ∧ (buildConfiguration_item p i).1 = Some c.
Proof.
  revert m. induction items as [|i l IH]; intros m; simpl; [by left|].
  intros [Hm|(j & ? & ? & ?)]%IH; [|right; exists j; split_and!; [by right|done..]].
  unfold store in Hm. destruct (buildConfiguration_item p i).1 as [c'|] eqn:E; [|by left].
  apply lookup_insert_Some in Hm as [[<- <-]|[_ ?]]; [|by left].
  right. exists i. split_and!; [by left|done..].
Qed.

(** X18. Every entry of the map handed to the merge is the fragment of an
    item of the pass that the filter accepted, stored under that item's
    key; and a key is in the map exactly when some item of the pass with
    that key is stored. *)
Theorem stored_fragment_origin p items k :
  (∀ c, (buildConfiguration_loop p items).1 !! k = Some c →
        ∃ i, i ∈ items ∧ svcName i = k
             ∧ (buildConfiguration_item p i).1 = Some c
             ∧ (keepContainer p k i).1 = true)
  ∧ (is_Some ((buildConfiguration_loop p items).1 !! k)
     ↔ ∃ i, i ∈ items ∧ svcName i = k ∧ is_Some (buildConfiguration_item p i).1).
Proof.
  rewrite loop_pair. simpl. split.
  - intros c [Hm|(i & Hin & <- & Hc)]%fold_lookup_origin; [by rewrite lookup_empty in Hm|].
    exists i. split_and!; [done..|].
    destruct (keepContainer p (svcName i) i).1 eqn:Hk; [done|].
    by rewrite buildConfiguration_item_rejected in Hc.
  - split.
    + intros [c [Hm|(i & ? & ? & Hc)]%fold_lookup_origin];
        [by rewrite lookup_empty in Hm|].
      exists i. by rewrite Hc.
    + intros (i & Hin & <- & [c Hc]). by eapply fold_lookup_member.
Qed.

(** Stores under different keys commute. *)
Lemma store_comm k1 k2 r1 r2 m :
  k1 ≠ k2 → store k1 r1 (store k2 r2 m) = store k2 r2 (store k1 r1 m).
Proof.
  intros Hne. destruct r1, r2; simpl; try done. by apply insert_insert_ne.
Qed.

Lemma fold_Permutation p items items' m :
  items ≡ₚ items' →
  NoDup (svcName <$> items) →
  foldl (λ m i, store (svcName i) (buildConfiguration_item p i).1 m) m items
  = foldl (λ m i, store (svcName i) (buildConfiguration_item p i).1 m) m items'.
Proof.
  intros Hp. revert m. induction Hp as [|x l l' Hp IH|x y l|l l' l'' Hp1 IH1 Hp2 IH2];
    intros m Hnd; simpl.
  - done.
  - apply IH. by apply NoDup_cons in Hnd as [_ ?].
  - f_equal. apply store_comm.
    rewrite !fmap_cons in Hnd. apply NoDup_cons in Hnd as [Hy _].
    intros Heq. apply Hy. rewrite Heq. by left.
  - rewrite IH1 by done. apply IH2. by rewrite <-Hp1.
Qed.

(** X19. When the items of a pass have pairwise different keys, the map
    handed to the merge, and so the configuration returned, does not depend
    on the order of the items; the log is the same up to the order of its
    lines. *)
Theorem pass_order_irrelevant p items items' :
  items ≡ₚ items' →
  NoDup (svcName <$> items) →
  (buildConfiguration_loop p items).1 = (buildConfiguration_loop p items').1
  ∧ buildConfiguration p items = buildConfiguration p items'
  ∧ (buildConfiguration_loop p items).2 ≡ₚ (buildConfiguration_loop p items').2.
Proof.
  intros Hp Hnd.
  assert ((buildConfiguration_loop p items).1 = (buildConfiguration_loop p items').1) as E.
  { rewrite !loop_pair. simpl. by apply fold_Permutation. }
  split_and!; [done|unfold buildConfiguration; by rewrite E|].
  rewrite !loop_pair. simpl. by rewrite Hp.
Qed.

Lemma fold_union p items m :
  foldl (λ m i, store (svcName i) (buildConfiguration_item p i).1 m) m items
  = foldl (λ m i, store (svcName i) (buildConfiguration_item p i).1 m) ∅ items ∪ m.
Proof.
  revert m. induction items as [|i l IH]; intros m; simpl.
  - by rewrite (left_id_L ∅ (∪)).
  - rewrite IH. rewrite (IH (store _ _ ∅)). rewrite <-(assoc_L (∪)). f_equal.
    destruct (buildConfiguration_item p i).1; simpl.
    + by rewrite insert_empty, <-insert_union_singleton_l.
    + by rewrite (left_id_L ∅ (∪)).
Qed.

(** X20. The pass over two lists one after the other hands the merge the
    union of the two maps, in which the second list's fragments take
    precedence on shared keys, and logs the lines of the first followed by
    those of the second. *)
Theorem pass_concatenation p l1 l2 :
  (buildConfiguration_loop p (l1 ++ l2)).1
  = (buildConfiguration_loop p l2).1 ∪ (buildConfiguration_loop p l1).1
  ∧ (buildConfiguration_loop p (l1 ++ l2)).2
    = (buildConfiguration_loop p l1).2 ++ (buildConfiguration_loop p l2).2.
Proof.
  rewrite !loop_pair. simpl. split.
  - rewrite foldl_app. apply fold_union.
  - by rewrite fmap_app, join_app.
Qed.

End Outcomes.

(** * The further properties on the concrete provider *)

Section OutcomesOnDemo.

Import Demo.

Existing Instance defaults.
Existing Instance collaborators.

Lemma addServerTCP_success_result_witness :
  addServerTCP web (Some tcpTwoSlots)
  = (Some (mkTCPServersLoadBalancer
             [mkTCPServer "10.0.0.5:8080" ""; mkTCPServer "10.9.9.9:81" ""]), None).
Proof.
  apply (addServerTCP_success_result web tcpTwoSlots); vm_compute; discriminate.
Defined.

Lemma addServer_success_result_witness :
  addServer noPort (Some lbPort8080)
  = (Some (mkServersLoadBalancer [mkServer "http://10.0.0.5:8080" "" "8080"]), None).
Proof.
  apply (addServer_success_result noPort lbPort8080); vm_compute; discriminate.
Defined.

Lemma addServer_rerun_drops_scheme_witness :
  addServer web (Some (mkServersLoadBalancer [mkServer "http://10.0.0.5:8080" "" ""]))
  = (Some (mkServersLoadBalancer [mkServer "://10.0.0.5:8080" "" ""]), None).
Proof.
  apply (addServer_rerun_drops_scheme web lbPort8080
           (mkServersLoadBalancer [mkServer "http://10.0.0.5:8080" "" ""])).
  reflexivity.
Defined.

Lemma failed_resolver_keeps_endpoints_witness :
  (∃ tlb', (addServerTCP noAddress (Some tcpTwoSlots)).1 = Some tlb'
           ∧ TCPServer_Address <$> TCPServers tlb'
             = TCPServer_Address <$> TCPServers tcpTwoSlots)
  ∧ (∃ lb', (addServer noAddress (Some lbTwoSlots)).1 = Some lb'
            ∧ Server_URL <$> Servers lb' = Server_URL <$> Servers lbTwoSlots
            ∧ Server_Scheme <$> Servers lb' = Server_Scheme <$> Servers lbTwoSlots).
Proof.
  destruct (failed_resolver_keeps_endpoints noAddress tcpTwoSlots lbTwoSlots) as [Ht Hh].
  - vm_compute. discriminate.
  - vm_compute. discriminate.
  - split; [apply Ht|apply Hh]; vm_compute; discriminate.
Defined.

Lemma default_service_synthesised_witness :
  buildServiceConfiguration web noHTTP = Ok webHTTP
  ∧ buildTCPServiceConfiguration web noTCP
    = Ok (mkTCPConfiguration ∅
            {[ "svc" := mkTCPService
                          (Some (mkTCPServersLoadBalancer
                                   [mkTCPServer "10.0.0.5:8080" ""])) ]}).
Proof.
  destruct (default_service_synthesised web noHTTP noTCP) as [Hh Ht].
  - vm_compute. discriminate.
  - vm_compute. discriminate.
  - reflexivity.
  - reflexivity.
  - split; [exact Hh|exact Ht].
Defined.

Lemma located_item_fails_on_nil_only_witness :
  (errLoadBalancerNotDefined = errLoadBalancerNotDefined
   ∧ ∃ name, HTTP_Services nilHTTP !! name = Some (mkService None))
  ∧ (errLoadBalancerNotDefined = errLoadBalancerNotDefined
     ∧ ∃ name, TCP_Services nilTCP !! name = Some (mkTCPService None)).
Proof.
  destruct (located_item_fails_on_nil_only web nilHTTP nilTCP errLoadBalancerNotDefined)
    as [Hh Ht].
  - vm_compute. discriminate.
  - vm_compute. discriminate.
  - split; [apply Hh|apply Ht]; vm_compute; reflexivity.
Defined.


Lemma http_only_fragment_witness :
  buildConfiguration_item prov web
  = (Some (mkConfiguration (httpRouters webHTTP "svc" "Host:" (mkModel "svc" ∅))
             (TCP emptyConf)), []).
Proof.
  etrans; [apply (http_only_fragment prov web emptyConf webHTTP)|].
  - reflexivity.
  - vm_compute. reflexivity.
  - reflexivity.
  - reflexivity.
  - vm_compute. reflexivity.
  - reflexivity.
Defined.

Lemma mixed_fragment_witness :
  buildConfiguration_item prov both
  = (Some (mkConfiguration (httpRouters bothHTTP "api" "Host:" (mkModel "api" (item_Labels both)))
             (tcpRouters bothTCP)), []).
Proof.
  etrans; [apply (mixed_fragment prov both bothDecoded bothTCP bothHTTP)|].
  - reflexivity.
  - vm_compute. reflexivity.
  - right. vm_compute. lia.
  - right. right. vm_compute. lia.
  - vm_compute. reflexivity.
  - vm_compute. reflexivity.
  - reflexivity.
Defined.

Lemma item_without_address_never_recorded_witness :
  (buildConfiguration_item prov noAddress).1 = None.
Proof. apply (item_without_address_never_recorded prov noAddress). reflexivity. Defined.

Lemma located_item_always_recorded_witness :
  is_Some (buildConfiguration_item prov both).1.
Proof.
  apply (located_item_always_recorded prov both bothDecoded).
  - reflexivity.
  - vm_compute. reflexivity.
  - vm_compute. discriminate.
  - vm_compute. discriminate.
  - apply map_Forall_singleton. by eexists.
  - apply map_Forall_singleton. by eexists.
Defined.

Lemma stored_fragment_origin_witness :
  ∃ i, i ∈ [web; web2] ∧ svcName i = "n1-svc-i2"
       ∧ (buildConfiguration_item prov i).1
         = Some (httpFragment "svc" "http://10.0.0.6:8080")
       ∧ (keepContainer prov "n1-svc-i2" i).1 = true.
Proof.
  apply (proj1 (stored_fragment_origin prov [web; web2] "n1-svc-i2")).
  vm_compute. reflexivity.
Defined.

Lemma pass_order_irrelevant_witness :
  (run [web; web2; db]).1 = (run [db; web2; web]).1.
Proof.
  destruct (pass_order_irrelevant prov [web; web2; db] [db; web2; web]) as (Hm & _).
  - apply (reverse_Permutation [db; web2; web]).
  - apply (bool_decide_unpack _). vm_compute. exact I.
  - exact Hm.
Defined.

End OutcomesOnDemo.
